(** * WealthTimeMachine: the financial decision model

    A shallow embedding of [backend/financial_model.py]
    (class [FinancialDecisionModel]) and the properties of its
    specification that were checked against it.

    Python's [float] arithmetic is reached through the interface
    [PyFloat], which has two instances:
    - [QFloat]: exact rational arithmetic (the idealised reading in which
      the specification's formulas are written);
    - [B64Float]: IEEE 754 binary64, the arithmetic CPython really uses,
      on the kernel's primitive floats.
    Every model function below is written once, over the interface. *)

From Stdlib Require Import ZArith QArith Qround Qabs Lia Lqa List Sorted Bool String
  Ascii Floats.
Import ListNotations.

Set Implicit Arguments.

(** ** Python numbers *)

Declare Scope py_scope.
Delimit Scope py_scope with py.

(** The operations of Python's [float] the model uses.  [lit q] is the
    float denoted by the decimal literal (or the [int]) [q]. *)
Class PyFloat (F : Type) : Type := {
  lit : Q -> F;
  fadd : F -> F -> F;
  fsub : F -> F -> F;
  fmul : F -> F -> F;
  fdiv : F -> F -> F;
  fopp : F -> F;
  fabs : F -> F;
  fltb : F -> F -> bool;
  fleb : F -> F -> bool;
  feqb : F -> F -> bool;
  (** [round(x, ndigits)] *)
  round_nd : F -> Z -> F;
  (** [int(x)] *)
  trunc : F -> Z
}.

Infix "+" := fadd : py_scope.
Infix "-" := fsub : py_scope.
Infix "*" := fmul : py_scope.
Infix "/" := fdiv : py_scope.
Notation "- x" := (fopp x) : py_scope.
Infix "<?" := fltb (at level 70, no associativity) : py_scope.
Infix "<=?" := fleb (at level 70, no associativity) : py_scope.
Infix "=?" := feqb (at level 70, no associativity) : py_scope.
Notation "x >? y" := (fltb y x) (at level 70, no associativity) : py_scope.
Notation "x >=? y" := (fleb y x) (at level 70, no associativity) : py_scope.

(** A Python [int] used where a float is expected. *)
Definition of_int {F} `{PyFloat F} (k : Z) : F := lit (inject_Z k).

(** The builtins [min(a, b)] and [max(a, b)]: the first argument is kept
    unless the second is strictly smaller (resp. greater). *)
Definition py_min {F} `{PyFloat F} (a b : F) : F := if (b <? a)%py then b else a.
Definition py_max {F} `{PyFloat F} (a b : F) : F := if (b >? a)%py then b else a.

(** ** Python strings *)

(** [needle in hay] on [str].  A string literal of this file holds the
    UTF-8 bytes of the source's literal; on well-formed UTF-8 a byte-wise
    substring is a code-point-wise substring. *)
Fixpoint contains (needle hay : string) : bool :=
  if prefix needle hay then true
  else match hay with
       | EmptyString => false
       | String _ rest => contains needle rest
       end.

(** ** TargetAmountEstimator *)

(** [calculate_target_amount].  The source also binds
    [goal_lower = goal.lower()] and never reads it. *)
Definition calculate_target_amount (goal : string) : Z :=
  if contains "买房" goal || contains "房" goal then 1000000
  else if contains "买车" goal || contains "车" goal then 300000
  else if contains "教育" goal then 500000
  else if contains "自由" goal || contains "退休" goal then 2000000
  else 500000.

(** [determine_goal_type] of the API layer ([main.py]): the same keyword
    tests, in the same order. *)
Definition determine_goal_type (goal : string) : string :=
  if contains "买房" goal || contains "房" goal then "house"
  else if contains "买车" goal || contains "车" goal then "car"
  else if contains "教育" goal then "education"
  else if contains "自由" goal || contains "退休" goal then "freedom"
  else "general".

(** ** RiskProfileTable *)

(** The keys of [self.risk_profiles]. *)
Inductive RiskLevel : Type := low | medium | high.

Record Allocation (F : Type) : Type := {
  bonds : F;
  stocks : F;
  cash : F
}.

Record RiskProfile (F : Type) : Type := {
  expected_return : F;
  volatility : F;
  max_drawdown : F;
  asset_allocation : Allocation F
}.

Section Model.

Context {F : Type} `{PyFloat F}.

Local Open Scope py_scope.

Definition risk_profiles (risk_level : RiskLevel) : RiskProfile F :=
  match risk_level with
  | low =>
      {| expected_return := lit 0.05;
         volatility := lit 0.03;
         max_drawdown := lit 0.05;
         asset_allocation :=
           {| bonds := lit 0.70; stocks := lit 0.20; cash := lit 0.10 |} |}
  | medium =>
      {| expected_return := lit 0.07;
         volatility := lit 0.08;
         max_drawdown := lit 0.15;
         asset_allocation :=
           {| bonds := lit 0.50; stocks := lit 0.40; cash := lit 0.10 |} |}
  | high =>
      {| expected_return := lit 0.09;
         volatility := lit 0.15;
         max_drawdown := lit 0.30;
         asset_allocation :=
           {| bonds := lit 0.30; stocks := lit 0.60; cash := lit 0.10 |} |}
  end.

(** ** PerformanceMetricsCalculator *)

Definition calculate_sharpe_ratio (risk_level : RiskLevel) : F :=
  let profile := risk_profiles risk_level in
  let risk_free_rate := lit 0.03 in
  let excess_return := expected_return profile - risk_free_rate in
  let sharpe :=
    if volatility profile >? of_int 0
    then excess_return / volatility profile
    else of_int 0 in
  round_nd sharpe 2.

Definition z_score (confidence_level : F) : F :=
  if confidence_level =? lit 0.95 then lit 1.645
  else if confidence_level =? lit 0.99 then lit 2.326
  else lit 1.28.

Definition calculate_var (risk_level : RiskLevel) (confidence_level : F) : F :=
  let profile := risk_profiles risk_level in
  let var := - expected_return profile + z_score confidence_level * volatility profile in
  round_nd (fabs var * of_int 100) 2.

Definition calculate_sortino_ratio (risk_level : RiskLevel) : F :=
  let profile := risk_profiles risk_level in
  let risk_free_rate := lit 0.03 in
  let excess_return := expected_return profile - risk_free_rate in
  let downside_volatility := volatility profile * lit 0.6 in
  let sortino :=
    if downside_volatility >? of_int 0
    then excess_return / downside_volatility
    else of_int 0 in
  round_nd sortino 2.

Definition calculate_cvar (risk_level : RiskLevel) (confidence_level : F) : F :=
  let var := calculate_var risk_level confidence_level / of_int 100 in
  let cvar := var * lit 1.3 in
  round_nd (cvar * of_int 100) 2.

(** ** AssetAllocationOptimizer *)

(** The locals [stocks_adj], [bonds_adj] and [cash_adj] of
    [optimize_asset_allocation], before normalisation. *)
Definition adjusted_allocation (risk_level : RiskLevel)
    (current_asset target_amount : F) (time_horizon : Z) : Allocation F :=
  let base_allocation := asset_allocation (risk_profiles risk_level) in
  let time_factor := py_min (lit 1.0) (of_int time_horizon / of_int 120) in
  let asset_ratio :=
    if target_amount >? of_int 0
    then py_min (lit 1.0) (current_asset / target_amount)
    else of_int 0 in
  let conservative_factor := asset_ratio * lit 0.3 in
  {| stocks := stocks base_allocation * (of_int 1 + time_factor * lit 0.2)
                 * (of_int 1 - conservative_factor);
     bonds := bonds base_allocation * (of_int 1 - time_factor * lit 0.1)
                * (of_int 1 + conservative_factor);
     cash := cash base_allocation |}.

(** The local [total], the divisor of the normalisation. *)
Definition allocation_total (adj : Allocation F) : F :=
  stocks adj + bonds adj + cash adj.

Definition optimize_asset_allocation (risk_level : RiskLevel)
    (current_asset target_amount : F) (time_horizon : Z) : Allocation F :=
  let adj := adjusted_allocation risk_level current_asset target_amount time_horizon in
  let total := allocation_total adj in
  {| stocks := round_nd (stocks adj / total) 3;
     bonds := round_nd (bonds adj / total) 3;
     cash := round_nd (cash adj / total) 3 |}.

(** ** SavingsPlanOptimizer *)

Record SavingsPlan : Type := {
  monthly_save : F;
  savings_rate : F;
  target_months : Z;
  expected_final_amount : F
}.

(** The [while] loop of the horizon search, on the pair
    [(accumulated, months)]; [None] when the fuel runs out before the loop
    condition turns false. *)
Fixpoint horizon_search (fuel : nat) (target_amount monthly_return monthly_save : F)
    (accumulated : F) (months : Z) : option (F * Z) :=
  match fuel with
  | O => None
  | S fuel' =>
      if (accumulated <? target_amount) && (months <? 600)%Z
      then horizon_search fuel' target_amount monthly_return monthly_save
             (accumulated * (of_int 1 + monthly_return) + monthly_save)
             (months + 1)%Z
      else Some (accumulated, months)
  end.

Section Savings.

(** [x ** n] for a float [x] and an int [n] (the C library's [pow]), on
    the runs where it returns: CPython raises [OverflowError] when the
    power leaves the binary64 range, which [(1 + monthly_return) ** n]
    does from about 95,000 months on (and when [n] itself is beyond the
    float range); the properties below that take a horizon from the caller
    bound it. *)
Variable pow_int : F -> Z -> F.

(** The first [if] of [calculate_optimal_savings_rate]: the pair
    [(target_months, monthly_save)] it leaves. *)
Definition savings_horizon (fuel : nat) (current_asset monthly_income target_amount : F)
    (monthly_return : F) (target_months : option Z) : option (Z * F) :=
  match target_months with
  | None =>
      let gap := target_amount - current_asset in
      if gap <=? of_int 0 then Some (0%Z, of_int 0)
      else
        let monthly_save := monthly_income * lit 0.3 in
        match horizon_search fuel target_amount monthly_return monthly_save
                current_asset 0 with
        | None => None
        | Some (_, months) =>
            Some (if (months <? 600)%Z then months else 600%Z, monthly_save)
        end
  | Some target_months =>
      if (target_months =? 0)%Z then Some (target_months, of_int 0)
      else
        let future_value_pv :=
          current_asset * pow_int (of_int 1 + monthly_return) target_months in
        let annuity_factor :=
          if monthly_return >? of_int 0
          then (pow_int (of_int 1 + monthly_return) target_months - of_int 1)
               / monthly_return
          else of_int target_months in
        let monthly_save :=
          if annuity_factor >? of_int 0
          then (target_amount - future_value_pv) / annuity_factor
          else (target_amount - current_asset) / of_int target_months in
        Some (target_months, py_max (of_int 0) monthly_save)
  end.

Definition calculate_optimal_savings_rate (fuel : nat)
    (current_asset monthly_income target_amount : F) (risk_level : RiskLevel)
    (target_months : option Z) : option SavingsPlan :=
  let profile := risk_profiles risk_level in
  let annual_return := expected_return profile in
  let monthly_return := annual_return / of_int 12 in
  match savings_horizon fuel current_asset monthly_income target_amount
          monthly_return target_months with
  | None => None
  | Some (target_months, monthly_save) =>
      let '(savings_rate, monthly_save) :=
        if (target_months =? 0)%Z || (monthly_income =? of_int 0)
        then (lit 0.0, of_int 0)
        else
          let savings_rate :=
            py_min (lit 0.6) (py_max (lit 0.2) (monthly_save / monthly_income)) in
          (savings_rate, monthly_income * savings_rate) in
      let annuity_factor :=
        if monthly_return >? of_int 0
        then (pow_int (of_int 1 + monthly_return) target_months - of_int 1)
             / monthly_return
        else of_int target_months in
      let expected_final_amount :=
        if (target_months =? 0)%Z then current_asset
        else
          let future_value_pv :=
            current_asset * pow_int (of_int 1 + monthly_return) target_months in
          future_value_pv + monthly_save * annuity_factor in
      Some {| monthly_save := round_nd monthly_save 2;
              savings_rate := round_nd savings_rate 2;
              target_months := target_months;
              expected_final_amount := round_nd expected_final_amount 2 |}
  end.

End Savings.

(** ** RiskToleranceEstimator *)

Record RiskFactors : Type := {
  asset_coverage : F;
  time_pressure : F;
  age_factor : F;
  income_stability : F
}.

Record RiskAssessment : Type := {
  risk_level : RiskLevel;
  risk_score : F;
  ml_enhanced : bool;
  factors : RiskFactors
}.

(** The local [asset_coverage] of [calculate_risk_tolerance] (factor 1). *)
Definition asset_coverage_factor (current_asset : F) (target_amount : Z) : F :=
  let asset_coverage :=
    if (target_amount >? 0)%Z
    then py_min (lit 2.0) (current_asset / of_int target_amount)
    else of_int 0 in
  py_max (of_int 0) asset_coverage.

(** The local [months_to_target], in the branch [gap > 0]. *)
Definition months_to_target (gap monthly_save_capacity : F) : F :=
  if monthly_save_capacity >? of_int 0
  then gap / monthly_save_capacity
  else of_int 999.

(** The local [time_pressure] of [calculate_risk_tolerance] (factor 2). *)
Definition time_pressure_factor (current_asset monthly_income : F)
    (target_amount : Z) : F :=
  let gap := of_int target_amount - current_asset in
  let monthly_save_capacity := monthly_income * lit 0.3 in
  if gap <=? of_int 0 then lit 0.0
  else
    let months_to_target := months_to_target gap monthly_save_capacity in
    if months_to_target <=? of_int 0 then lit 1.0
    else if months_to_target <? of_int 12 then lit 1.0
    else if months_to_target <? of_int 60
         then py_min (lit 1.0) (of_int 60 / months_to_target)
    else py_min (lit 1.0) (of_int 100 / months_to_target).

Section Risk.

(** [math.log], [x ** y] on floats, and the learned scorer
    ([self.ml_model] with [self.scaler]): [None] when scikit-learn is
    missing or the training failed; a model's prediction is [None] when it
    raises.  [math_log] and [pow] stand for the runs where [math.log] and
    [**] return a float, as they do for [monthly_income >= 0] and an age a
    float can hold: [math.log] raises [ValueError] when
    [1 + monthly_income / 5000 <= 0], a negative base makes the power a
    complex number, on which the comparisons raise [TypeError], and
    [(age - 25) / 50] raises [OverflowError] beyond the float range. *)
Variable math_log : F -> F.
Variable pow : F -> F -> F.
Variable ml_model : option (F -> F -> F -> F -> option F).

Definition _calculate_risk_score_traditional
    (asset_coverage time_pressure age_factor income_stability gap : F) : F :=
  let risk_score :=
    if gap <=? of_int 0
    then py_min (lit 0.4)
           (pow asset_coverage (lit 0.1) * pow age_factor (lit 0.2)
            * pow income_stability (lit 0.2) * pow (lit 0.5) (lit 0.5))
    else
      let risk_score :=
        pow (py_min (lit 1.0) asset_coverage) (lit 0.25)
        * pow time_pressure (lit 0.25)
        * pow age_factor (lit 0.25)
        * pow income_stability (lit 0.25) in
      if (time_pressure >? lit 0.7) && (asset_coverage <? lit 0.3)
      then py_min (lit 1.0) (risk_score * lit 1.2)
      else risk_score in
  py_max (lit 0.0) (py_min (lit 1.0) risk_score).

Definition calculate_risk_tolerance (current_asset monthly_income : F)
    (goal : string) (age : Z) : RiskAssessment :=
  let target_amount := calculate_target_amount goal in
  let gap := of_int target_amount - current_asset in
  let asset_coverage := asset_coverage_factor current_asset target_amount in
  let time_pressure := time_pressure_factor current_asset monthly_income target_amount in
  let age_factor :=
    py_max (lit 0.5) (of_int 1 - of_int (age - 25) / of_int 50) in
  let income_stability :=
    py_min (lit 1.0)
      (math_log (of_int 1 + monthly_income / of_int 5000) / math_log (of_int 5)) in
  let traditional :=
    _calculate_risk_score_traditional
      asset_coverage time_pressure age_factor income_stability gap in
  let '(risk_score, ml_enhanced) :=
    match ml_model with
    | Some predict =>
        match predict (py_min (lit 1.0) asset_coverage) time_pressure
                age_factor income_stability with
        | Some risk_score => (py_max (lit 0.0) (py_min (lit 1.0) risk_score), true)
        | None => (traditional, false)
        end
    | None => (traditional, false)
    end in
  let risk_level :=
    if risk_score >=? lit 0.7 then high
    else if risk_score >=? lit 0.4 then medium
    else low in
  {| risk_level := risk_level;
     risk_score := round_nd risk_score 2;
     ml_enhanced := ml_enhanced;
     factors :=
       {| asset_coverage := round_nd (py_min (lit 1.0) asset_coverage) 2;
          time_pressure := round_nd time_pressure 2;
          age_factor := round_nd age_factor 2;
          income_stability := round_nd income_stability 2 |} |}.

End Risk.

(** ** MonteCarloSimulator *)

Record SimulationResult : Type := {
  expected_value : F;
  median : F;
  p5 : F;
  p95 : F;
  confidence_interval : list F
}.

(** [list.sort()] on floats: a stable insertion sort on [<]. *)
Fixpoint sort_insert (x : F) (l : list F) : list F :=
  match l with
  | [] => [x]
  | y :: l' => if y <? x then y :: sort_insert x l' else x :: l
  end.

Definition list_sort (l : list F) : list F := fold_right sort_insert [] l.

(** [l[i]]: a negative index counts from the end, [None] is [IndexError]. *)
Definition list_index (l : list F) (i : Z) : option F :=
  let len := Z.of_nat (List.length l) in
  if (i <? 0)%Z
  then if (i <? - len)%Z then None else nth_error l (Z.to_nat (len + i))
  else nth_error l (Z.to_nat i).

(** [isfinite(x)] through the operations at hand: [x - x] is zero for a
    finite [x] and a NaN, which equals nothing, for an infinity or a NaN. *)
Definition isfinite (x : F) : bool := (x - x =? of_int 0)%py.

(** The float loop of the builtin [sum] in CPython 3.12 and later, the
    versions that read the f-strings of [main.py]: Neumaier's compensated
    summation.  [f_result] is the running sum and [c] the compensation,
    which is added at the end when it is nonzero and finite. *)
Fixpoint sum_floats (l : list F) (f_result c : F) : F :=
  match l with
  | [] => if negb (c =? lit 0.0) && isfinite c then f_result + c else f_result
  | x :: l' =>
      let t := f_result + x in
      let c :=
        if fabs f_result >=? fabs x
        then c + ((f_result - t) + x)
        else c + ((x - t) + f_result) in
      sum_floats l' t c
  end.

(** [sum(l)] on a list of floats.  It starts from the int [0]: an empty
    list gives that [0], and the first item turns the result into the
    float [0 + x], from where the float loop takes over. *)
Definition py_sum (l : list F) : F :=
  match l with
  | [] => of_int 0
  | x :: l' => sum_floats l' (of_int 0 + x) (lit 0.0)
  end.

Section MonteCarlo.

(** [math.sqrt], and the generator behind [random.gauss]: a state and a
    draw that returns the sample and the next state. *)
Variable math_sqrt : F -> F.
Variable Rng : Type.
Variable gauss : Rng -> F -> F -> F * Rng.

(** The inner loop [for month in range(months)]. *)
Fixpoint simulate_path (months : nat) (monthly_save monthly_return monthly_vol : F)
    (asset : F) (g : Rng) : F * Rng :=
  match months with
  | O => (asset, g)
  | S months' =>
      let '(random_return, g') := gauss g monthly_return monthly_vol in
      simulate_path months' monthly_save monthly_return monthly_vol
        (asset * (of_int 1 + random_return) + monthly_save) g'
  end.

(** The outer loop [for _ in range(simulations)]; the values come out in
    the order they were appended. *)
Fixpoint simulate_all (simulations : nat) (current_asset monthly_save
    monthly_return monthly_vol : F) (months : nat) (g : Rng) : list F * Rng :=
  match simulations with
  | O => ([], g)
  | S simulations' =>
      let '(asset, g') :=
        simulate_path months monthly_save monthly_return monthly_vol current_asset g in
      let '(rest, g'') :=
        simulate_all simulations' current_asset monthly_save monthly_return
          monthly_vol months g' in
      (asset :: rest, g'')
  end.

Definition monte_carlo_simulation (current_asset monthly_save expected_return
    volatility : F) (months simulations : Z) (g : Rng)
    : option SimulationResult * Rng :=
  let monthly_return := expected_return / of_int 12 in
  let monthly_vol := volatility / math_sqrt (of_int 12) in
  let '(final_values, g') :=
    simulate_all (Z.to_nat simulations) current_asset monthly_save
      monthly_return monthly_vol (Z.to_nat months) g in
  let final_values := list_sort final_values in
  let result :=
    match list_index final_values (simulations / 2)%Z,
          list_index final_values (trunc (of_int simulations * lit 0.05)),
          list_index final_values (trunc (of_int simulations * lit 0.95)) with
    | Some median, Some p5, Some p95 =>
        let mean := py_sum final_values / of_int (Z.of_nat (List.length final_values)) in
        Some {| expected_value := round_nd mean 2;
                median := round_nd median 2;
                p5 := round_nd p5 2;
                p95 := round_nd p95 2;
                confidence_interval := [round_nd p5 2; round_nd p95 2] |}
    | _, _, _ => None
    end in
  (result, g').

End MonteCarlo.

(** ** RecommendationSynthesizer *)

(** The dict returned by [recommend_path].  Its key ["volatility"] is the
    field [volatilityPercent] (the name [volatility] is the profile's);
    the sub-dict ["riskFactors"] has the keys of [RiskFactors], and the
    sub-dict ["monteCarloSimulation"], which copies the five entries of
    the simulation's result one by one, is kept as the [SimulationResult]
    it copies. *)
Record Recommendation : Type := {
  recommendedRisk : RiskLevel;
  reason : string;
  monthlySave : F;
  expectedReturn : F;
  targetMonths : Z;
  targetAmount : Z;
  expectedFinalAmount : F;
  sharpeRatio : F;
  sortinoRatio : F;
  var95 : F;
  cvar95 : F;
  volatilityPercent : F;
  maxDrawdown : F;
  assetAllocation : Allocation F;
  monteCarloSimulation : SimulationResult;
  riskScore : F;
  riskFactors : RiskFactors
}.

Definition risk_name (risk_level : RiskLevel) : string :=
  match risk_level with
  | low => "稳健型"
  | medium => "平衡型"
  | high => "激进型"
  end.

Section Recommend.

(** The format [f"{x:.0f}"]. *)
Variable format_0f : F -> string.

(** The list [reasons] that [_generate_recommendation_reason] builds, in
    the order of its [append]s. *)
Definition recommendation_reasons (factors : RiskFactors) : list string :=
  let asset_coverage_pct := asset_coverage factors * of_int 100 in
  let time_pressure_pct := time_pressure factors * of_int 100 in
  ([ if asset_coverage_pct >? of_int 50
     then ("您已经完成了目标的" ++ format_0f asset_coverage_pct
           ++ "%，资产基础较好")%string
     else if asset_coverage_pct <? of_int 20
     then "您当前资产基础较低，建议从稳健开始，逐步积累"%string
     else ("您已经完成了目标的" ++ format_0f asset_coverage_pct
           ++ "%，有一定基础")%string ]
   ++ [ if time_pressure_pct >? of_int 70
        then "达成目标的时间比较紧迫，需要追求更高收益来加快进度"%string
        else if time_pressure_pct <? of_int 30
        then "达成目标的时间比较充裕，可以承受一定的市场波动"%string
        else "达成目标的时间适中，可以在风险和收益之间找到平衡"%string ]
   ++ (if age_factor factors >? lit 0.8
       then ["您还年轻，有足够的时间来承受市场波动，可以追求更高收益"%string]
       else if age_factor factors <? lit 0.5
       then ["考虑到您的年龄，建议采用更稳健的策略，保护已有资产"%string]
       else [])
   ++ (if income_stability factors >? lit 0.7
       then ["您的收入比较稳定，有较强的风险承受能力"%string]
       else if income_stability factors <? lit 0.5
       then ["考虑到收入稳定性，建议采用更保守的策略"%string]
       else []))%list.

(** [_generate_recommendation_reason]; the arguments [savings_plan] and
    [target_amount] are passed and never read. *)
Definition _generate_recommendation_reason (risk_assessment : RiskAssessment)
    (savings_plan : SavingsPlan) (risk_level : RiskLevel) (target_amount : Z)
    : string :=
  let reasons := recommendation_reasons (factors risk_assessment) in
  let base_reason :=
    ("基于您的财务状况分析，推荐" ++ risk_name risk_level ++ "理财方案。")%string in
  match reasons with
  | [] => base_reason
  | _ :: _ =>
      let selected_reasons := firstn 3 reasons in
      (base_reason ++ " " ++ String.concat "；" selected_reasons)%string
  end.

Variable pow_int : F -> Z -> F.
Variable math_log : F -> F.
Variable pow : F -> F -> F.
Variable ml_model : option (F -> F -> F -> F -> option F).
Variable math_sqrt : F -> F.
Variable Rng : Type.
Variable gauss : Rng -> F -> F -> F * Rng.

(** Steps 2 to 10 of [recommend_path] and the dict it returns, for a
    given assessment and tier.  The body of the loop of the endpoint
    [/api/planning/recommend] ([main.py]) is the same text, run for each
    of the three tiers.  [None] is an exception raised on the way: the
    horizon search out of fuel, or the simulation's [IndexError]. *)
Definition recommendation_for (fuel : nat) (risk_assessment : RiskAssessment)
    (target_amount : Z) (current_asset monthly_income : F)
    (recommended_risk : RiskLevel) (g : Rng) : option Recommendation * Rng :=
  match calculate_optimal_savings_rate pow_int fuel current_asset monthly_income
          (of_int target_amount) recommended_risk None with
  | None => (None, g)
  | Some savings_plan =>
      let profile := risk_profiles recommended_risk in
      let sharpe_ratio := calculate_sharpe_ratio recommended_risk in
      let sortino_ratio := calculate_sortino_ratio recommended_risk in
      let var_95 := calculate_var recommended_risk (lit 0.95) in
      let cvar_95 := calculate_cvar recommended_risk (lit 0.95) in
      let '(mc_result, g') :=
        monte_carlo_simulation math_sqrt gauss current_asset
          (monthly_save savings_plan) (expected_return profile)
          (volatility profile) (target_months savings_plan) 10000 g in
      match mc_result with
      | None => (None, g')
      | Some mc_result =>
          let optimized_allocation :=
            optimize_asset_allocation recommended_risk current_asset
              (of_int target_amount) (target_months savings_plan) in
          let reason :=
            _generate_recommendation_reason risk_assessment savings_plan
              recommended_risk target_amount in
          (Some {| recommendedRisk := recommended_risk;
                   reason := reason;
                   monthlySave := round_nd (monthly_save savings_plan) 2;
                   expectedReturn :=
                     round_nd (expected_return profile * of_int 100) 1;
                   targetMonths := target_months savings_plan;
                   targetAmount := target_amount;
                   expectedFinalAmount :=
                     round_nd (expected_final_amount savings_plan) 2;
                   sharpeRatio := round_nd sharpe_ratio 2;
                   sortinoRatio := round_nd sortino_ratio 2;
                   var95 := round_nd var_95 2;
                   cvar95 := round_nd cvar_95 2;
                   volatilityPercent :=
                     round_nd (volatility profile * of_int 100) 1;
                   maxDrawdown := round_nd (max_drawdown profile * of_int 100) 1;
                   assetAllocation := optimized_allocation;
                   monteCarloSimulation := mc_result;
                   riskScore := round_nd (risk_score risk_assessment) 2;
                   riskFactors :=
                     {| asset_coverage :=
                          round_nd (asset_coverage (factors risk_assessment)) 2;
                        time_pressure :=
                          round_nd (time_pressure (factors risk_assessment)) 2;
                        age_factor :=
                          round_nd (age_factor (factors risk_assessment)) 2;
                        income_stability :=
                          round_nd (income_stability (factors risk_assessment)) 2
                     |} |}, g')
      end
  end.

Definition recommend_path (fuel : nat) (goal : string)
    (current_asset monthly_income : F) (age : Z) (g : Rng)
    : option Recommendation * Rng :=
  let target_amount := calculate_target_amount goal in
  let risk_assessment :=
    calculate_risk_tolerance math_log pow ml_model current_asset monthly_income
      goal age in
  let recommended_risk := risk_level risk_assessment in
  recommendation_for fuel risk_assessment target_amount current_asset
    monthly_income recommended_risk g.

(** The loop [for risk_level in ["low", "medium", "high"]] of the
    endpoint, on the dict [recommendations] (its entries in insertion
    order) and the generator. *)
Fixpoint planning_loop (fuel : nat) (risk_assessment : RiskAssessment)
    (target_amount : Z) (current_asset monthly_income : F)
    (levels : list RiskLevel) (g : Rng)
    : option (list (RiskLevel * Recommendation)) * Rng :=
  match levels with
  | [] => (Some [], g)
  | level :: levels' =>
      match recommendation_for fuel risk_assessment target_amount current_asset
              monthly_income level g with
      | (None, g') => (None, g')
      | (Some recommendation, g') =>
          match planning_loop fuel risk_assessment target_amount current_asset
                  monthly_income levels' g' with
          | (None, g'') => (None, g'')
          | (Some recommendations, g'') =>
              (Some ((level, recommendation) :: recommendations), g'')
          end
      end
  end.

(** The endpoint [/api/planning/recommend] ([recommend_path] of
    [main.py]): the pair of the keys ["recommendedRisk"] and
    ["recommendations"] of its answer; [None] is the HTTP error 500 its
    handler turns an exception into.  The assessment is made for the
    fixed age 30. *)
Definition planning_recommend (fuel : nat) (goal : string)
    (current_asset monthly_income : F) (g : Rng)
    : option (RiskLevel * list (RiskLevel * Recommendation)) * Rng :=
  let target_amount := calculate_target_amount goal in
  let risk_assessment :=
    calculate_risk_tolerance math_log pow ml_model current_asset monthly_income
      goal 30 in
  let recommended_risk := risk_level risk_assessment in
  match planning_loop fuel risk_assessment target_amount current_asset
          monthly_income [low; medium; high] g with
  | (None, g') => (None, g')
  | (Some recommendations, g') => (Some (recommended_risk, recommendations), g')
  end.

End Recommend.

End Model.

(** ** The exact instance: rational arithmetic *)

(** Rounding to the nearest integer, ties to the even one. *)
Definition round_half_even (x : Q) : Z :=
  let f := Qfloor x in
  match Qcompare (x - inject_Z f) (1 # 2) with
  | Lt => f
  | Gt => (f + 1)%Z
  | Eq => if Z.even f then f else (f + 1)%Z
  end.

(** [round(x, ndigits)] on an exact value: the nearest multiple of
    [10 ^ (- ndigits)], ties to the even multiple. *)
Definition Qround_nd (x : Q) (ndigits : Z) : Q :=
  let scale := Qpower 10 ndigits in
  inject_Z (round_half_even (x * scale)) / scale.

(** [int(x)]: truncation towards zero. *)
Definition Qtrunc (x : Q) : Z := Z.quot (Qnum x) (Zpos (Qden x)).

Definition Qltb (x y : Q) : bool := negb (Qle_bool y x).

#[export] Instance QFloat : PyFloat Q := {|
  lit := fun q => q;
  fadd := Qplus;
  fsub := Qminus;
  fmul := Qmult;
  fdiv := Qdiv;
  fopp := Qopp;
  fabs := Qabs;
  fltb := Qltb;
  fleb := Qle_bool;
  feqb := Qeq_bool;
  round_nd := Qround_nd;
  trunc := Qtrunc
|}.

(** ** The binary64 instance: CPython's floats *)

Definition Z2SF (k : Z) : spec_float :=
  match k with
  | Z0 => S754_zero false
  | Zpos p => S754_finite false p 0
  | Zneg p => S754_finite true p 0
  end.

(** The binary64 number nearest to a rational (ties to even), which is
    how CPython reads a decimal literal and converts an [int]. *)
Definition b64_of_Q (q : Q) : float :=
  SF2Prim (SFdiv prec emax (Z2SF (Qnum q)) (Z2SF (Zpos (Qden q)))).

(** The exact value of a finite binary64 number. *)
Definition b64_to_Q (x : float) : option Q :=
  match Prim2SF x with
  | S754_zero _ => Some 0%Q
  | S754_finite s m e => Some (inject_Z (cond_Zopp s (Zpos m)) * Qpower 2 e)%Q
  | S754_infinity _ | S754_nan => None
  end.

(** [float.__round__] with [ndigits]: the exact value is rounded to
    [ndigits] decimals, ties to even, and the decimal result is read back
    as the nearest binary64 number; a zero result keeps the sign of [x],
    and an infinity or a NaN is returned as it is. *)
Definition b64_round_nd (x : float) (ndigits : Z) : float :=
  match b64_to_Q x with
  | None => x
  | Some q =>
      let scale := Qpower 10 ndigits in
      let k := round_half_even (q * scale) in
      if (k =? 0)%Z then PrimFloat.mul x PrimFloat.zero
      else b64_of_Q (inject_Z k / scale)
  end.

Definition b64_trunc (x : float) : Z :=
  match b64_to_Q x with
  | None => 0%Z
  | Some q => Qtrunc q
  end.

#[export] Instance B64Float : PyFloat float := {|
  lit := b64_of_Q;
  fadd := PrimFloat.add;
  fsub := PrimFloat.sub;
  fmul := PrimFloat.mul;
  fdiv := PrimFloat.div;
  fopp := PrimFloat.opp;
  fabs := PrimFloat.abs;
  fltb := PrimFloat.ltb;
  fleb := PrimFloat.leb;
  feqb := PrimFloat.eqb;
  round_nd := b64_round_nd;
  trunc := b64_trunc
|}.

(** * Vocabulary of the properties *)

(** The keyword tests of [calculate_target_amount], one per bucket. *)
Definition is_house (goal : string) : bool := contains "买房" goal || contains "房" goal.
Definition is_car (goal : string) : bool := contains "买车" goal || contains "车" goal.
Definition is_education (goal : string) : bool := contains "教育" goal.
Definition is_freedom (goal : string) : bool := contains "自由" goal || contains "退休" goal.


(** The specification's case table for the time pressure, in the
    arithmetic at hand: 0 when [gap <= 0]; otherwise, with
    [monthsToTarget = gap / (monthlyIncome * 0.3)] and the sentinel 999
    when that capacity is [<= 0], 1.0 below 12 months,
    [min(1.0, 60 / monthsToTarget)] from 12 to 60 months and
    [min(1.0, 100 / monthsToTarget)] from 60 months on. *)
Definition time_pressure_table {F} `{PyFloat F}
    (gap monthly_income time_pressure : F) : Prop :=
  ((gap <=? of_int 0)%py = true -> time_pressure = lit 0.0)
  /\ ((gap <=? of_int 0)%py = false ->
      let capacity := (monthly_income * lit 0.3)%py in
      let months_to_target :=
        if (capacity <=? of_int 0)%py then of_int 999 else (gap / capacity)%py in
      ((months_to_target <? of_int 12)%py = true -> time_pressure = lit 1.0)
      /\ ((of_int 12 <=? months_to_target)%py = true ->
          (months_to_target <? of_int 60)%py = true ->
          time_pressure = py_min (lit 1.0) (of_int 60 / months_to_target)%py)
      /\ ((months_to_target >=? of_int 60)%py = true ->
          time_pressure = py_min (lit 1.0) (of_int 100 / months_to_target)%py)).


(** One point of a binary64 check of the allocation, for a target of
    1,000,000: the divisor is positive and the weights add up to 1.0
    within 0.0015. *)
Definition allocation_grid_ok (t : RiskLevel) (current_asset : Q) (h : Z) : bool :=
  let adj := adjusted_allocation (F := float) t (lit current_asset) (lit 1000000) h in
  let a := optimize_asset_allocation (F := float) t (lit current_asset) (lit 1000000) h in
  (of_int 0 <? allocation_total adj)%py
  && (fabs (stocks a + bonds a + cash a - lit 1.0) <=? lit 0.0015)%py.


(** The generator after [n] draws of [random.gauss(mu, sigma)]. *)
Fixpoint after_draws {F Rng : Type} (gauss : Rng -> F -> F -> F * Rng)
    (mu sigma : F) (n : nat) (g : Rng) : Rng :=
  match n with
  | O => g
  | S n' => after_draws gauss mu sigma n' (snd (gauss g mu sigma))
  end.

(** The balance after [n] months of the horizon search: each month the
    balance earns the monthly return and receives the monthly saving. *)
Fixpoint accumulated_after {F} `{PyFloat F}
    (monthly_return monthly_save current_asset : F) (n : nat) : F :=
  match n with
  | O => current_asset
  | S n' =>
      (accumulated_after monthly_return monthly_save current_asset n'
       * (of_int 1 + monthly_return) + monthly_save)%py
  end.

(** The tiers in the order of their expected return. *)
Definition tier_rank (t : RiskLevel) : Z :=
  match t with low => 0 | medium => 1 | high => 2 end.

(** Texts of [_generate_recommendation_reason]: the sentence every reason
    opens with, and the two clauses about the age. *)
Definition reason_opening (risk_level : RiskLevel) : string :=
  ("基于您的财务状况分析，推荐" ++ risk_name risk_level ++ "理财方案。")%string.

Definition young_clause : string :=
  "您还年轻，有足够的时间来承受市场波动，可以追求更高收益".

Definition age_caution_clause : string :=
  "考虑到您的年龄，建议采用更稳健的策略，保护已有资产".

(** * Properties *)

Unset Implicit Arguments.

(** ** TargetAmountEstimator *)

Lemma calculate_target_amount_cases (goal : string) :
  calculate_target_amount goal =
    (if is_house goal then 1000000
     else if is_car goal then 300000
     else if is_education goal then 500000
     else if is_freedom goal then 2000000
     else 500000)%Z.
Proof. reflexivity. Qed.

(** C3, as stated, fails: the house amount is not above the freedom amount
    and the car amount is not above the generic one. *)
Lemma target_amount_order_counterexample :
  ~ (calculate_target_amount "买房" > calculate_target_amount "财务自由"
     /\ calculate_target_amount "财务自由" > calculate_target_amount "教育基金"
     /\ calculate_target_amount "教育基金" > calculate_target_amount "买车"
     /\ calculate_target_amount "买车" > calculate_target_amount "旅行")%Z.
Proof.
  vm_compute. intros [Hhouse _]. discriminate Hhouse.
Qed.

(** C3, amended: whatever the goal texts are, a freedom goal is worth more
    than a house goal, a house goal more than an education goal, an
    education goal as much as a generic goal, and a generic goal more than
    a car goal; a text with no keyword gets the generic 500000. *)
Theorem target_amount_buckets (house car education freedom generic : string) :
  is_house house = true ->
  is_house car = false -> is_car car = true ->
  is_house education = false -> is_car education = false ->
  is_education education = true ->
  is_house freedom = false -> is_car freedom = false ->
  is_education freedom = false -> is_freedom freedom = true ->
  is_house generic = false -> is_car generic = false ->
  is_education generic = false -> is_freedom generic = false ->
  (calculate_target_amount freedom = 2000000
   /\ calculate_target_amount house = 1000000
   /\ calculate_target_amount education = 500000
   /\ calculate_target_amount generic = 500000
   /\ calculate_target_amount car = 300000
   /\ calculate_target_amount freedom > calculate_target_amount house
   /\ calculate_target_amount house > calculate_target_amount education
   /\ calculate_target_amount education = calculate_target_amount generic
   /\ calculate_target_amount generic > calculate_target_amount car)%Z.
Proof.
  intros Hh Hc1 Hc2 He1 He2 He3 Hf1 Hf2 Hf3 Hf4 Hg1 Hg2 Hg3 Hg4.
  rewrite !calculate_target_amount_cases.
  rewrite Hh, Hc1, Hc2, He1, He2, He3, Hf1, Hf2, Hf3, Hf4, Hg1, Hg2, Hg3, Hg4.
  repeat split; reflexivity.
Qed.

Lemma target_amount_buckets_witness :
  (calculate_target_amount "财务自由" = 2000000
   /\ calculate_target_amount "买房" = 1000000
   /\ calculate_target_amount "教育基金" = 500000
   /\ calculate_target_amount "旅行" = 500000
   /\ calculate_target_amount "买车" = 300000
   /\ calculate_target_amount "财务自由" > calculate_target_amount "买房"
   /\ calculate_target_amount "买房" > calculate_target_amount "教育基金"
   /\ calculate_target_amount "教育基金" = calculate_target_amount "旅行"
   /\ calculate_target_amount "旅行" > calculate_target_amount "买车")%Z.
Proof.
  apply (target_amount_buckets "买房" "买车" "教育基金" "财务自由" "旅行");
    reflexivity.
Defined.

(** The goal text of the specification's scenario holds none of the
    keywords. *)
Lemma buy_a_house_is_generic :
  is_house "buy a house" = false /\ is_car "buy a house" = false
  /\ is_education "buy a house" = false /\ is_freedom "buy a house" = false.
Proof. repeat split; reflexivity. Qed.

(** C2, as stated, fails: for the text "buy a house" the target is the
    generic 500000, and the asset coverage of 50000 is 0.1, whatever the
    income, the age and the scorer are. *)
Lemma buy_a_house_counterexample :
  calculate_target_amount "buy a house" <> 1000000%Z
  /\ (forall math_log pow ml_model (monthly_income : float) (age : Z),
        asset_coverage
          (factors (calculate_risk_tolerance math_log pow ml_model
                      (lit 50000) monthly_income "buy a house" age))
        = lit 0.1)
  /\ (lit (F := float) 0.1 =? lit 0.05)%py = false.
Proof.
  split; [ vm_compute; discriminate | split; [ | reflexivity ] ].
  intros math_log pow ml_model monthly_income age.
  unfold calculate_risk_tolerance.
  destruct ml_model as [predict|]; [ destruct (predict _ _ _ _) | ];
    cbn [factors asset_coverage]; vm_compute; reflexivity.
Qed.

(** C2, amended: for the goal text "买房" (the keyword the code looks for)
    the target amount is 1,000,000, and with a current asset of 50000 the
    asset coverage computed by [calculate_risk_tolerance] is 0.05, both
    the internal factor and the one returned. *)
Theorem house_goal_scenario
    (math_log : float -> float) (pow : float -> float -> float)
    (ml_model : option (float -> float -> float -> float -> option float))
    (monthly_income : float) (age : Z) :
  calculate_target_amount "买房" = 1000000%Z
  /\ asset_coverage_factor (lit (F := float) 50000)
       (calculate_target_amount "买房") = lit 0.05
  /\ asset_coverage
       (factors (calculate_risk_tolerance math_log pow ml_model
                   (lit 50000) monthly_income "买房" age))
     = lit 0.05.
Proof.
  split; [ reflexivity | split; [ vm_compute; reflexivity | ] ].
  unfold calculate_risk_tolerance.
  destruct ml_model as [predict|]; [ destruct (predict _ _ _ _) | ];
    cbn [factors asset_coverage]; vm_compute; reflexivity.
Qed.

(** ** PerformanceMetricsCalculator *)

(** The branch of [z_score] taken, for binary64. *)
Lemma z_score_b64_cases (confidence_level : float) :
  z_score confidence_level = lit 1.645
  \/ z_score confidence_level = lit 2.326
  \/ z_score confidence_level = lit 1.28.
Proof.
  unfold z_score.
  destruct (confidence_level =? lit 0.95)%py; [ now left | ].
  destruct (confidence_level =? lit 0.99)%py; [ right; now left | right; now right ].
Qed.

(** What the metrics are at the 95% level, in binary64. *)
Lemma metrics_b64_table :
  map (fun t => (calculate_var (F := float) t (lit 0.95),
                 calculate_cvar (F := float) t (lit 0.95)))
      [low; medium; high]
  = [(lit 0.07, lit 0.09); (lit 6.16, lit 8.01); (lit 15.68, lit 20.38)].
Proof. vm_compute. reflexivity. Qed.

(** C4, as stated, fails: at the 95% level no tier's CVaR is 1.3 times
    its VaR (0.09 against 0.091, 8.01 against 8.008, 20.38 against
    20.384), in binary64 and in exact arithmetic alike. *)
Lemma cvar_not_exact_counterexample :
  forallb (fun t => negb (calculate_cvar (F := float) t (lit 0.95)
                          =? lit 1.3 * calculate_var t (lit 0.95))%py)
          [low; medium; high] = true
  /\ forallb (fun t => negb (calculate_cvar (F := Q) t (lit 0.95)
                             =? lit 1.3 * calculate_var t (lit 0.95))%py)
             [low; medium; high] = true.
Proof. split; vm_compute; reflexivity. Qed.

(** C4, amended: for every tier and every confidence level, in binary64,
    [calculate_cvar] is [calculate_var / 100 * 1.3 * 100] rounded to two
    decimals, and is within 0.005 of 1.3 times [calculate_var]. *)
Theorem calculate_cvar_rounds_var (t : RiskLevel) (confidence_level : float) :
  calculate_cvar t confidence_level
  = round_nd (calculate_var t confidence_level / of_int 100 * lit 1.3 * of_int 100)%py 2
  /\ (fabs (calculate_cvar t confidence_level
            - lit 1.3 * calculate_var t confidence_level) <=? lit 0.005)%py = true.
Proof.
  split; [ reflexivity | ].
  unfold calculate_cvar, calculate_var.
  destruct (z_score_b64_cases confidence_level) as [-> | [-> | ->]];
    destruct t; vm_compute; reflexivity.
Qed.

(** C7, as stated, fails: the 95% VaR of the low tier is not within half
    a cent of 4.94; it is 0.07 in binary64 (0.06 in exact arithmetic,
    where 0.065 is a tie). *)
Lemma var95_low_counterexample :
  (fabs (calculate_var (F := float) low (lit 0.95) - lit 4.94) <=? lit 0.005)%py = false
  /\ (fabs (calculate_var (F := Q) low (lit 0.95) - lit 4.94) <=? lit 0.005)%py = false.
Proof. split; vm_compute; reflexivity. Qed.

(** C7, amended: for the low tier, in binary64, [calculate_sharpe_ratio]
    returns 0.67 and [calculate_var] at the 95% level returns 0.07, the
    rounding of [|-0.05 + 1.645 * 0.03| * 100], which is just above 0.065. *)
Theorem low_tier_metrics :
  expected_return (risk_profiles (F := float) low) = lit 0.05
  /\ volatility (risk_profiles (F := float) low) = lit 0.03
  /\ calculate_sharpe_ratio (F := float) low = lit 0.67
  /\ calculate_sharpe_ratio (F := float) low
     = round_nd ((lit 0.05 - lit 0.03) / lit 0.03)%py 2
  /\ calculate_var (F := float) low (lit 0.95) = lit 0.07
  /\ calculate_var (F := float) low (lit 0.95)
     = round_nd (fabs (- lit 0.05 + lit 1.645 * lit 0.03) * of_int 100)%py 2
  /\ (lit 0.065 <? fabs (- lit 0.05 + lit 1.645 * lit 0.03) * of_int 100)%py = true.
Proof. repeat split; vm_compute; reflexivity. Qed.

(** ** SavingsPlanOptimizer *)

Section SavingsProperties.

Context {F : Type} `{PyFloat F}.

(** The horizon search stops within [600 - months] iterations, with a
    month count between the one it started from and 600. *)
Lemma horizon_search_terminates (target_amount monthly_return monthly_save : F) :
  forall (fuel : nat) (accumulated : F) (months : Z),
    (0 <= months <= 600)%Z ->
    (Z.to_nat (600 - months) < fuel)%nat ->
    exists accumulated' months',
      horizon_search fuel target_amount monthly_return monthly_save
        accumulated months = Some (accumulated', months')
      /\ (months <= months' <= 600)%Z.
Proof.
  induction fuel as [|fuel IH]; intros accumulated months Hm Hfuel; [ lia | ].
  cbn [horizon_search].
  destruct (accumulated <? target_amount)%py; cbn [andb].
  - destruct (Z.ltb_spec months 600) as [Hlt | Hge].
    + destruct (IH (accumulated * (of_int 1 + monthly_return) + monthly_save)%py
                  (months + 1)%Z) as (a & m & Heq & Hle); [ lia | lia | ].
      exists a, m. split; [ exact Heq | lia ].
    + exists accumulated, months. split; [ reflexivity | lia ].
  - exists accumulated, months. split; [ reflexivity | lia ].
Qed.

(** C8: with the horizon unspecified and a positive gap, the
    month-by-month search stops (601 units of fuel are enough for every
    input, in any arithmetic) and the plan's [target_months] is in
    [0, 600]. *)
Theorem horizon_search_capped (pow_int : F -> Z -> F) (fuel : nat)
    (current_asset monthly_income target_amount : F) (risk_level : RiskLevel) :
  (600 < fuel)%nat ->
  (target_amount - current_asset <=? of_int 0)%py = false ->
  (exists accumulated months,
      horizon_search fuel target_amount
        (expected_return (risk_profiles risk_level) / of_int 12)%py
        (monthly_income * lit 0.3)%py current_asset 0
      = Some (accumulated, months)
      /\ (0 <= months <= 600)%Z)
  /\ exists plan,
      calculate_optimal_savings_rate pow_int fuel current_asset monthly_income
        target_amount risk_level None = Some plan
      /\ (0 <= target_months plan <= 600)%Z.
Proof.
  intros Hfuel Hgap.
  destruct (@horizon_search_terminates target_amount
              (expected_return (risk_profiles risk_level) / of_int 12)%py
              (monthly_income * lit 0.3)%py fuel current_asset 0%Z)
    as (a & m & Heq & Hle); [ lia | simpl; lia | ].
  split; [ exists a, m; split; [ exact Heq | lia ] | ].
  unfold calculate_optimal_savings_rate, savings_horizon.
  rewrite Hgap, Heq.
  destruct (Z.ltb_spec m 600);
    match goal with
    | |- context [if ?c then (_, _) else _] => destruct c
    end; eexists; (split; [ reflexivity | cbn [target_months]; lia ]).
Qed.

Lemma savings_horizon_returns (pow_int : F -> Z -> F) (fuel : nat)
    (current_asset monthly_income target_amount monthly_return : F)
    (horizon : option Z) :
  (600 < fuel)%nat ->
  exists months monthly_save,
    savings_horizon pow_int fuel current_asset monthly_income target_amount
      monthly_return horizon = Some (months, monthly_save).
Proof.
  intro Hfuel. unfold savings_horizon.
  destruct horizon as [tm|].
  - destruct (tm =? 0)%Z; eexists; eexists; reflexivity.
  - destruct (target_amount - current_asset <=? of_int 0)%py;
      [ eexists; eexists; reflexivity | ].
    destruct (horizon_search_terminates target_amount monthly_return
                (monthly_income * lit 0.3)%py fuel current_asset 0%Z)
      as (a & m & Heq & _); [ lia | simpl; lia | ].
    rewrite Heq. eexists; eexists; reflexivity.
Qed.

(** The function returns a plan, whose rate is 0.0 under the guard
    [target_months == 0 or monthly_income == 0] and a value clamped to
    [0.2, 0.6] otherwise, rounded to two decimals. *)
Lemma calculate_optimal_savings_rate_returns (pow_int : F -> Z -> F) (fuel : nat)
    (current_asset monthly_income target_amount : F) (risk_level : RiskLevel)
    (horizon : option Z) :
  (600 < fuel)%nat ->
  exists plan monthly_save,
    calculate_optimal_savings_rate pow_int fuel current_asset monthly_income
      target_amount risk_level horizon = Some plan
    /\ savings_rate plan
       = round_nd
           (if (target_months plan =? 0)%Z || (monthly_income =? of_int 0)%py
            then lit 0.0
            else py_min (lit 0.6) (py_max (lit 0.2) (monthly_save / monthly_income)%py))
           2.
Proof.
  intro Hfuel. unfold calculate_optimal_savings_rate.
  destruct (savings_horizon_returns pow_int fuel current_asset monthly_income
              target_amount
              (expected_return (risk_profiles risk_level) / of_int 12)%py
              horizon Hfuel) as (tm & ms & Heq).
  rewrite Heq.
  destruct ((tm =? 0)%Z || (monthly_income =? of_int 0)%py) eqn:E;
    eexists; exists ms; (split; [ reflexivity | ]);
    cbn [savings_rate target_months]; rewrite E; reflexivity.
Qed.

(** When the goal is already met the plan has no horizon: this is how
    [recommend_path] reaches the simulation with [months = 0]. *)
Lemma goal_met_plan (pow_int : F -> Z -> F) (fuel : nat)
    (current_asset monthly_income target_amount : F) (risk_level : RiskLevel) :
  (target_amount - current_asset <=? of_int 0)%py = true ->
  calculate_optimal_savings_rate pow_int fuel current_asset monthly_income
    target_amount risk_level None
  = Some {| monthly_save := round_nd (of_int 0) 2;
            savings_rate := round_nd (lit 0.0) 2;
            target_months := 0;
            expected_final_amount := round_nd current_asset 2 |}.
Proof.
  intro Hgap. unfold calculate_optimal_savings_rate, savings_horizon.
  rewrite Hgap. reflexivity.
Qed.

End SavingsProperties.

Lemma horizon_search_capped_witness :
  (exists accumulated months,
      horizon_search 601 (lit (F := float) 1000000)
        (expected_return (risk_profiles medium) / of_int 12)%py
        (lit 15000 * lit 0.3)%py (lit 50000) 0
      = Some (accumulated, months)
      /\ (0 <= months <= 600)%Z)
  /\ exists plan,
      calculate_optimal_savings_rate (fun (x : float) (n : Z) => x) 601
        (lit 50000) (lit 15000) (lit 1000000) medium None = Some plan
      /\ (0 <= target_months plan <= 600)%Z.
Proof.
  apply (horizon_search_capped (F := float) (fun (x : float) (n : Z) => x) 601
           (lit 50000) (lit 15000) (lit 1000000) medium);
    [ lia | vm_compute; reflexivity ].
Defined.

(** ** Exact arithmetic: comparisons and rounding *)

Lemma Qltb_reflect (x y : Q) : reflect (x < y)%Q (Qltb x y).
Proof.
  unfold Qltb. destruct (Qle_bool y x) eqn:E; constructor.
  - apply Qle_bool_iff in E. apply Qle_not_lt. exact E.
  - apply Qnot_le_lt. intro Hle. apply Qle_bool_iff in Hle. congruence.
Qed.

Lemma Qle_bool_reflect (x y : Q) : reflect (x <= y)%Q (Qle_bool x y).
Proof.
  destruct (Qle_bool x y) eqn:E; constructor.
  - apply Qle_bool_iff. exact E.
  - intro Hle. apply Qle_bool_iff in Hle. congruence.
Qed.

Lemma Qeq_bool_reflect (x y : Q) : reflect (x == y)%Q (Qeq_bool x y).
Proof.
  destruct (Qeq_bool x y) eqn:E; constructor.
  - apply Qeq_bool_iff. exact E.
  - intro Heq. apply Qeq_bool_iff in Heq. congruence.
Qed.

(** Unfolds the exact instance and splits on every comparison in sight. *)
Ltac q_unfold :=
  cbv [py_min py_max of_int lit fadd fsub fmul fdiv fopp fabs fltb fleb feqb
       round_nd trunc QFloat] in *.

Ltac q_cases :=
  repeat match goal with
    | |- context [Qltb ?x ?y] => destruct (Qltb_reflect x y)
    | |- context [Qle_bool ?x ?y] => destruct (Qle_bool_reflect x y)
    | |- context [Qeq_bool ?x ?y] => destruct (Qeq_bool_reflect x y)
    end.

Ltac q_one := change (inject_Z 1) with 1%Q in *.

Lemma round_half_even_spec (x : Q) :
  (x - (1 # 2) <= inject_Z (round_half_even x) <= x + (1 # 2))%Q.
Proof.
  unfold round_half_even.
  pose proof (Qfloor_le x) as Hlo.
  pose proof (Qlt_floor x) as Hhi.
  rewrite inject_Z_plus in Hhi.
  destruct (Qcompare (x - inject_Z (Qfloor x)) (1 # 2)) eqn:E.
  - apply Qeq_alt in E.
    destruct (Z.even (Qfloor x)); [ | rewrite inject_Z_plus ]; q_one; lra.
  - apply Qlt_alt in E. q_one. lra.
  - apply Qgt_alt in E. rewrite inject_Z_plus. q_one. lra.
Qed.

Lemma round_half_even_comp (x y : Q) :
  (x == y)%Q -> round_half_even x = round_half_even y.
Proof.
  intro Hxy. unfold round_half_even.
  rewrite (Qfloor_comp _ _ Hxy).
  assert (Hc : Qcompare (x - inject_Z (Qfloor y)) (1 # 2)
               = Qcompare (y - inject_Z (Qfloor y)) (1 # 2)).
  { apply Qcompare_comp; [ rewrite Hxy; reflexivity | reflexivity ]. }
  rewrite Hc. reflexivity.
Qed.

Lemma Qround_nd_comp (x y : Q) (ndigits : Z) :
  (x == y)%Q -> Qround_nd x ndigits = Qround_nd y ndigits.
Proof.
  intro Hxy. unfold Qround_nd.
  rewrite (@round_half_even_comp (x * Qpower 10 ndigits) (y * Qpower 10 ndigits));
    [ reflexivity | rewrite Hxy; reflexivity ].
Qed.

(** An integer within a half of an integer-bounded value keeps the bounds. *)
Lemma round_half_even_between (x : Q) (lo hi : Z) :
  (inject_Z lo <= x <= inject_Z hi)%Q ->
  (lo <= round_half_even x <= hi)%Z.
Proof.
  intros [Hlo Hhi].
  pose proof (round_half_even_spec x) as [Hk1 Hk2].
  split.
  - assert (Hlt : (inject_Z lo < inject_Z (round_half_even x + 1))%Q).
    { rewrite inject_Z_plus. q_one. lra. }
    rewrite <- Zlt_Qlt in Hlt. lia.
  - assert (Hlt : (inject_Z (round_half_even x) < inject_Z (hi + 1))%Q).
    { rewrite inject_Z_plus. q_one. lra. }
    rewrite <- Zlt_Qlt in Hlt. lia.
Qed.

Lemma Qround_nd_2 (x : Q) :
  (Qround_nd x 2 == inject_Z (round_half_even (x * 100)) / 100)%Q.
Proof. reflexivity. Qed.

Lemma Qround_nd_3 (x : Q) :
  (Qround_nd x 3 == inject_Z (round_half_even (x * 1000)) / 1000)%Q.
Proof. reflexivity. Qed.

(** ** Binary64: comparisons and rounding *)





(** A product with a finite constant is a NaN only if the other factor is. *)














Lemma digits2_pos_bounds (m : positive) :
  (2 ^ (Zpos (digits2_pos m) - 1) <= Zpos m < 2 ^ Zpos (digits2_pos m))%Z.
Proof.
  induction m as [m IH|m IH|]; cbn [digits2_pos].
  - rewrite Pos2Z.inj_succ.
    replace (Z.succ (Zpos (digits2_pos m)) - 1)%Z with (Zpos (digits2_pos m)) by lia.
    rewrite Z.pow_succ_r by lia.
    assert (Hd : (2 ^ Zpos (digits2_pos m) = 2 * 2 ^ (Zpos (digits2_pos m) - 1))%Z).
    { rewrite <- Z.pow_succ_r by lia. f_equal. lia. }
    lia.
  - rewrite Pos2Z.inj_succ.
    replace (Z.succ (Zpos (digits2_pos m)) - 1)%Z with (Zpos (digits2_pos m)) by lia.
    rewrite Z.pow_succ_r by lia.
    assert (Hd : (2 ^ Zpos (digits2_pos m) = 2 * 2 ^ (Zpos (digits2_pos m) - 1))%Z).
    { rewrite <- Z.pow_succ_r by lia. f_equal. lia. }
    lia.
  - cbn. lia.
Qed.

(** A normal binary64 number has a 53-bit mantissa. *)
Lemma valid_normal_mantissa (s : bool) (m : positive) (e : Z) :
  SpecFloat.valid_binary prec emax (S754_finite s m e) = true ->
  (-1074 < e)%Z ->
  (2 ^ 52 <= Zpos m < 2 ^ 53)%Z.
Proof.
  cbn [SpecFloat.valid_binary]. unfold bounded, canonical_mantissa, fexp, SpecFloat.emin.
  intros Hv He. apply andb_prop in Hv. destruct Hv as [Hc _].
  apply Z.eqb_eq in Hc.
  change (3 - emax - prec)%Z with (-1074)%Z in Hc.
  change prec with 53%Z in Hc.
  assert (Hd : Zpos (digits2_pos m) = 53%Z) by lia.
  pose proof (digits2_pos_bounds m) as Hb. rewrite Hd in Hb. exact Hb.
Qed.

Lemma compare_cont_Eq_Lt (p q : positive) :
  Pos.compare_cont Eq p q = Lt -> (p < q)%positive.
Proof. intro Hc. exact Hc. Qed.

Lemma round_results_in_range (k : Z) :
  (20 <= k <= 60)%Z ->
  (of_int (F := float) 0 <=? b64_of_Q (inject_Z k / Qpower 10 2))%py = true
  /\ (lit (F := float) 0.2 <=? b64_of_Q (inject_Z k / Qpower 10 2))%py = true
  /\ (b64_of_Q (inject_Z k / Qpower 10 2) <=? lit 0.6)%py = true.
Proof.
  intros Hk.
  assert (Hn : exists n, k = (20 + Z.of_nat n)%Z /\ (n <= 40)%nat).
  { exists (Z.to_nat (k - 20)). lia. }
  destruct Hn as (n & -> & Hn).
  do 41 (destruct n as [|n]; [ repeat split; vm_compute; reflexivity | ]).
  lia.
Qed.


Lemma SFltb_pos_pos (m1 : positive) (e1 : Z) (m2 : positive) (e2 : Z) :
  SFltb (S754_finite false m1 e1) (S754_finite false m2 e2) = true ->
  (e1 < e2)%Z \/ (e1 = e2 /\ (m1 < m2)%positive).
Proof.
  unfold SFltb. cbn [SFcompare].
  destruct (Z.compare_spec e1 e2) as [He | He | He]; try discriminate.
  - destruct (Pos.compare_cont Eq m1 m2) eqn:Hc; try discriminate.
    intros _. right. split; [ exact He | exact Hc ].
  - intros _. left. exact He.
Qed.

Lemma SFltb_pos_l_inv (m1 : positive) (e1 : Z) (x : spec_float) :
  SFltb (S754_finite false m1 e1) x = true ->
  x = S754_infinity false \/ exists m e, x = S754_finite false m e.
Proof.
  unfold SFltb.
  destruct x as [s|s| |s m e]; try destruct s; cbn [SFcompare]; try discriminate.
  - intros _. left. reflexivity.
  - intros _. right. exists m, e. reflexivity.
Qed.

Lemma SFltb_inf_l (y : spec_float) : SFltb (S754_infinity false) y = false.
Proof. destruct y as [s|s| |s m e]; try destruct s; reflexivity. Qed.

Lemma Prim2SF_lit_02 :
  Prim2SF (lit 0.2) = S754_finite false 7205759403792794 (-55).
Proof. vm_compute. reflexivity. Qed.

Lemma Prim2SF_lit_06 :
  Prim2SF (lit 0.6) = S754_finite false 5404319552844595 (-53).
Proof. vm_compute. reflexivity. Qed.

(** The binary64 numbers strictly between the floats 0.2 and 0.6. *)
Lemma b64_between_02_06 (x : float) :
  (lit 0.2 <? x)%py = true -> (x <? lit 0.6)%py = true ->
  exists mx ex,
    Prim2SF x = S754_finite false mx ex
    /\ (2 ^ 52 <= Zpos mx < 2 ^ 53)%Z
    /\ ((ex = -55 /\ 7205759403792794 < Zpos mx)
        \/ ex = -54
        \/ (ex = -53 /\ Zpos mx < 5404319552844595))%Z.
Proof.
  cbn [fltb B64Float]. rewrite !ltb_spec, Prim2SF_lit_02, Prim2SF_lit_06.
  pose proof (Prim2SF_valid x) as Hv.
  intros Hlo Hhi.
  destruct (SFltb_pos_l_inv _ _ _ Hlo) as [Hinf | (mx & ex & Hx)].
  - rewrite Hinf, SFltb_inf_l in Hhi. discriminate.
  - rewrite Hx in Hlo, Hhi, Hv.
    apply SFltb_pos_pos in Hlo. apply SFltb_pos_pos in Hhi.
    exists mx, ex. split; [ exact Hx | ].
    assert (He0 : (-1074 < ex)%Z).
    { destruct Hlo as [Hlo | [Hlo _]]; clear - Hlo; lia. }
    split; [ exact (valid_normal_mantissa false mx ex Hv He0) | ].
    clear Hv Hx He0.
    assert (He : (-55 <= ex <= -53)%Z).
    { destruct Hlo as [Hlo | [Hlo _]], Hhi as [Hhi | [Hhi _]]; clear - Hlo Hhi; lia. }
    destruct Hlo as [Hlo | [Hlo Hlo']], Hhi as [Hhi | [Hhi Hhi']].
    + right. left. clear - Hlo Hhi. lia.
    + right. right. split; [ exact Hhi | ]. exact (Pos2Z.pos_lt_pos _ _ Hhi').
    + left. split; [ symmetry; exact Hlo | ]. exact (Pos2Z.pos_lt_pos _ _ Hlo').
    + exfalso. clear - Hlo Hhi. lia.
Qed.

(** The exact value of such a number times 100 is between 20 and 60. *)
Lemma scaled_between_20_60 (mx : positive) (ex : Z) :
  (2 ^ 52 <= Zpos mx < 2 ^ 53)%Z ->
  ((ex = -55 /\ 7205759403792794 < Zpos mx)
   \/ ex = -54
   \/ (ex = -53 /\ Zpos mx < 5404319552844595))%Z ->
  (inject_Z 20 <= inject_Z (Zpos mx) * Qpower 2 ex * Qpower 10 2 <= inject_Z 60)%Q.
Proof.
  intros Hm He.
  assert (H10 : (Qpower 10 2 == 100)%Q) by reflexivity.
  assert (Hlo52 : (inject_Z (2 ^ 52) <= inject_Z (Zpos mx))%Q)
    by (rewrite <- Zle_Qle; lia).
  assert (Hhi53 : (inject_Z (Zpos mx) < inject_Z (2 ^ 53))%Q)
    by (rewrite <- Zlt_Qlt; lia).
  change (inject_Z (2 ^ 52)) with (4503599627370496 # 1)%Q in Hlo52.
  change (inject_Z (2 ^ 53)) with (9007199254740992 # 1)%Q in Hhi53.
  change (inject_Z 20) with (20 # 1)%Q. change (inject_Z 60) with (60 # 1)%Q.
  rewrite H10.
  destruct He as [[-> Hgt] | [-> | [-> Hlt]]].
  - assert (Hgt' : (inject_Z 7205759403792794 < inject_Z (Zpos mx))%Q)
      by (rewrite <- Zlt_Qlt; exact Hgt).
    change (inject_Z 7205759403792794) with (7205759403792794 # 1)%Q in Hgt'.
    assert (Hp : (Qpower 2 (-55) == 1 # 36028797018963968)%Q) by reflexivity.
    rewrite Hp. set (q := inject_Z (Zpos mx)) in *. clearbody q.
    clear - Hgt' Hhi53. lra.
  - assert (Hp : (Qpower 2 (-54) == 1 # 18014398509481984)%Q) by reflexivity.
    rewrite Hp. set (q := inject_Z (Zpos mx)) in *. clearbody q.
    clear - Hlo52 Hhi53. lra.
  - assert (Hlt' : (inject_Z (Zpos mx) < inject_Z 5404319552844595)%Q)
      by (rewrite <- Zlt_Qlt; exact Hlt).
    change (inject_Z 5404319552844595) with (5404319552844595 # 1)%Q in Hlt'.
    assert (Hp : (Qpower 2 (-53) == 1 # 9007199254740992)%Q) by reflexivity.
    rewrite Hp. set (q := inject_Z (Zpos mx)) in *. clearbody q.
    clear - Hlt' Hlo52. lra.
Qed.

Lemma b64_round_open_interval (x : float) :
  (lit 0.2 <? x)%py = true -> (x <? lit 0.6)%py = true ->
  (of_int 0 <=? round_nd x 2)%py = true
  /\ (lit 0.2 <=? round_nd x 2)%py = true /\ (round_nd x 2 <=? lit 0.6)%py = true.
Proof.
  intros Hlo Hhi.
  destruct (b64_between_02_06 x Hlo Hhi) as (mx & ex & Hx & Hm & He).
  cbn [round_nd B64Float]. unfold b64_round_nd, b64_to_Q. rewrite Hx.
  cbn [cond_Zopp]. cbv zeta.
  pose proof (round_half_even_between _ 20 60 (scaled_between_20_60 mx ex Hm He))
    as Hk.
  set (k := round_half_even (inject_Z (Zpos mx) * Qpower 2 ex * Qpower 10 2)) in *.
  clearbody k.
  destruct (Z.eqb_spec k 0) as [H0 | _]; [ lia | ].
  exact (round_results_in_range k Hk).
Qed.

(** A rate clamped to [0.2, 0.6] and then rounded to two decimals is
    still in [0.2, 0.6], for every binary64 number, NaN and infinities
    included. *)
Lemma b64_rate_clamped (x : float) :
  let rate := round_nd (py_min (lit 0.6) (py_max (lit 0.2) x)) 2 in
  (of_int 0 <=? rate)%py = true
  /\ (lit 0.2 <=? rate)%py = true /\ (rate <=? lit 0.6)%py = true.
Proof.
  unfold py_min, py_max.
  destruct (lit 0.2 <? x)%py eqn:Hlo.
  - destruct (x <? lit 0.6)%py eqn:Hhi.
    + exact (b64_round_open_interval x Hlo Hhi).
    + repeat split; vm_compute; reflexivity.
  - replace (lit (F := float) 0.2 <? lit 0.6)%py with true by (vm_compute; reflexivity).
    repeat split; vm_compute; reflexivity.
Qed.


(** ** AssetAllocationOptimizer, in exact arithmetic *)

Section AllocationExact.

Local Open Scope Q_scope.

Ltac q_consts :=
  change (inject_Z 0) with 0 in *;
  repeat match goal with
    | |- context [inject_Z (Zpos ?p)] =>
        change (inject_Z (Zpos p)) with (Zpos p # 1) in *
    | H : context [inject_Z (Zpos ?p)] |- _ =>
        change (inject_Z (Zpos p)) with (Zpos p # 1) in *
    end.

Lemma py_min_one_bounds (x : Q) :
  0 <= x -> 0 <= py_min (F := Q) (lit 1.0) x <= 1.
Proof.
  intro Hx. q_unfold. q_cases; lra.
Qed.

Lemma Qdiv_nonneg (a b : Q) : 0 <= a -> 0 < b -> 0 <= a / b.
Proof.
  intros Ha Hb. apply Qle_shift_div_l; [ exact Hb | lra ].
Qed.

(** [time_factor] is in [0, 1]. *)
Lemma time_factor_bounds (h : Z) :
  (0 <= h)%Z -> 0 <= py_min (F := Q) (lit 1.0) (of_int h / of_int 120)%py <= 1.
Proof.
  intro Hh. apply py_min_one_bounds. q_unfold.
  apply Qdiv_nonneg; [ | reflexivity ].
  change 0 with (inject_Z 0). rewrite <- Zle_Qle. exact Hh.
Qed.

(** [asset_ratio] is in [0, 1], so [conservative_factor] is in [0, 0.3]. *)
Lemma asset_ratio_bounds (current_asset target_amount : Q) :
  0 <= current_asset ->
  0 <= (if (target_amount >? of_int 0)%py
        then py_min (F := Q) (lit 1.0) (current_asset / target_amount)%py
        else of_int 0) <= 1.
Proof.
  intro Hca. q_unfold. q_consts.
  destruct (Qltb_reflect 0 target_amount) as [Hpos | Hneg].
  - apply (py_min_one_bounds (current_asset / target_amount)).
    apply Qdiv_nonneg; assumption.
  - lra.
Qed.

Lemma adjusted_allocation_bounds (t : RiskLevel) (current_asset target_amount : Q)
    (h : Z) :
  (0 <= h)%Z -> 0 <= current_asset ->
  let adj := adjusted_allocation t current_asset target_amount h in
  0 <= stocks adj /\ 0 <= bonds adj /\ cash adj == 1 # 10.
Proof.
  intros Hh Hca adj. subst adj. unfold adjusted_allocation.
  pose proof (time_factor_bounds h Hh) as Htf.
  pose proof (asset_ratio_bounds current_asset target_amount Hca) as Har.
  cbn [stocks bonds cash].
  set (tf := py_min (lit 1.0) (of_int h / of_int 120)%py) in *.
  set (ar := if (target_amount >? of_int 0)%py then _ else _) in *.
  clearbody tf ar.
  destruct t; cbn [risk_profiles asset_allocation stocks bonds cash];
    q_unfold; q_consts; (split; [ | split; [ | reflexivity ] ]).
  all: nra.
Qed.

Lemma allocation_total_pos (t : RiskLevel) (current_asset target_amount : Q) (h : Z) :
  (0 <= h)%Z -> 0 <= current_asset ->
  0 < allocation_total (adjusted_allocation t current_asset target_amount h).
Proof.
  intros Hh Hca.
  destruct (adjusted_allocation_bounds t current_asset target_amount h Hh Hca)
    as (Hs & Hb & Hc).
  unfold allocation_total. q_unfold. lra.
Qed.

(** C9: for every tier, every horizon [>= 0] and every current asset
    [>= 0] (and every target amount), the adjusted stocks and bonds
    weights are nonnegative, the cash weight is the positive base weight,
    and so the divisor [total] of the normalisation is strictly positive
    (exact arithmetic). *)
Theorem normalization_divisor_positive (t : RiskLevel)
    (current_asset target_amount : Q) (time_horizon : Z) :
  (0 <= time_horizon)%Z -> 0 <= current_asset ->
  let adj := adjusted_allocation t current_asset target_amount time_horizon in
  0 <= stocks adj /\ 0 <= bonds adj
  /\ cash adj == cash (asset_allocation (risk_profiles t)) /\ 0 < cash adj
  /\ 0 < allocation_total adj.
Proof.
  intros Hh Hca adj.
  destruct (adjusted_allocation_bounds t current_asset target_amount time_horizon
              Hh Hca) as (Hs & Hb & Hc).
  fold adj in Hs, Hb, Hc.
  split; [ exact Hs | split; [ exact Hb | split; [ | split ] ] ].
  - destruct t; reflexivity.
  - lra.
  - apply allocation_total_pos; assumption.
Qed.

Lemma normalization_divisor_positive_witness :
  let adj := adjusted_allocation (F := Q) low 50000 1000000 120 in
  0 <= stocks adj /\ 0 <= bonds adj
  /\ cash adj == cash (asset_allocation (risk_profiles low)) /\ 0 < cash adj
  /\ 0 < allocation_total adj.
Proof.
  apply (normalization_divisor_positive low 50000 1000000 120);
    [ lia | vm_compute; discriminate ].
Defined.





(** In binary64 the returned weights are the floats nearest to those
    decimals, and adding them is rounded again, so that the float sum can
    miss 1.0 by a little more than 1e-3: for the low tier, no assets and a
    horizon of 120 months, [0.247 + 0.649 + 0.103] is at a distance of
    0.0010000000000000009 from 1.0. *)
Lemma allocation_sum_b64_noise :
  let a := optimize_asset_allocation (F := float) low (lit 0) (lit 1000000) 120 in
  (fabs (stocks a + bonds a + cash a - lit 1.0) <=? lit 0.001)%py = false
  /\ (fabs (stocks a + bonds a + cash a - lit 1.0)
      =? lit 0.0010000000000000009)%py = true.
Proof. split; vm_compute; reflexivity. Qed.

(** A check in binary64 of C9 and of the sum of the weights, which stays
    within 0.0015 of 1.0: for the three tiers, every horizon from 0 to
    125 months and three asset levels against a target of 1,000,000. *)
Lemma allocation_b64_grid :
  forallb (fun t =>
    forallb (fun current_asset =>
      forallb (allocation_grid_ok t current_asset) (map Z.of_nat (seq 0 126)))
      [0; 50000; 5000000])
    [low; medium; high] = true.
Proof. vm_compute. reflexivity. Qed.

End AllocationExact.

(** ** SavingsPlanOptimizer, in exact arithmetic *)

Section SavingsExact.

Local Open Scope Q_scope.

Lemma Qround_nd_2_zero : Qround_nd 0.0 2 == 0.
Proof. reflexivity. Qed.

(** Rounding to two decimals keeps a rate clamped to [0.2, 0.6] there. *)
Lemma Qround_nd_2_clamped (x : Q) :
  0.2 <= Qround_nd (py_min (F := Q) (lit 0.6) (py_max (lit 0.2) x)) 2 <= 0.6.
Proof.
  set (r := py_min (lit 0.6) (py_max (lit 0.2) x)).
  assert (Hr : 0.2 <= r <= 0.6).
  { subst r. q_unfold. q_cases; lra. }
  rewrite Qround_nd_2.
  assert (Hk : (20 <= round_half_even (r * 100) <= 60)%Z).
  { apply round_half_even_between.
    change (inject_Z 20) with 20. change (inject_Z 60) with 60. lra. }
  destruct Hk as [Hk1 Hk2].
  rewrite Zle_Qle in Hk1, Hk2.
  change (inject_Z 20) with 20 in Hk1. change (inject_Z 60) with 60 in Hk2.
  set (k := inject_Z (round_half_even (r * 100))) in *. clearbody k.
  split.
  - apply Qle_shift_div_l; [ reflexivity | lra ].
  - apply Qle_shift_div_r; [ reflexivity | lra ].
Qed.

(** C5, as stated, fails: with no income (and no assets) the search runs
    to the cap, so the plan has [target_months = 600] and yet a savings
    rate of 0, in binary64 and in exact arithmetic alike. *)
Lemma savings_rate_zero_counterexample :
  (forall pow_int : float -> Z -> float,
     match calculate_optimal_savings_rate pow_int 601 (lit 0) (lit 0) (lit 500000)
             low None with
     | Some plan =>
         (savings_rate plan =? of_int 0)%py && (target_months plan =? 600)%Z
     | None => false
     end = true)
  /\ (forall pow_int : Q -> Z -> Q,
     match calculate_optimal_savings_rate pow_int 601 (lit 0) (lit 0) (lit 500000)
             low None with
     | Some plan =>
         (savings_rate plan =? of_int 0)%py && (target_months plan =? 600)%Z
     | None => false
     end = true).
Proof.
  split; intro pow_int; vm_compute; reflexivity.
Qed.

(** The amended C5 in exact arithmetic. *)
Lemma savings_rate_range_exact (pow_int : Q -> Z -> Q) (fuel : nat)
    (current_asset monthly_income target_amount : Q) (risk_level : RiskLevel)
    (horizon : option Z) :
  (600 < fuel)%nat ->
  exists plan,
    calculate_optimal_savings_rate pow_int fuel current_asset monthly_income
      target_amount risk_level horizon = Some plan
    /\ 0 <= savings_rate plan <= 0.6
    /\ (target_months plan = 0%Z \/ monthly_income == 0
        -> savings_rate plan == 0)
    /\ (target_months plan <> 0%Z -> ~ monthly_income == 0
        -> 0.2 <= savings_rate plan <= 0.6).
Proof.
  intro Hfuel.
  destruct (calculate_optimal_savings_rate_returns pow_int fuel current_asset
              monthly_income target_amount risk_level horizon Hfuel)
    as (plan & ms & Heq & Hrate).
  exists plan. split; [ exact Heq | ].
  rewrite Hrate. clear Hrate Heq.
  pose proof (Qround_nd_2_clamped (ms / monthly_income)) as Hcl.
  change (round_nd (F := Q)) with Qround_nd.
  change (fdiv (F := Q) ms monthly_income) with (ms / monthly_income).
  assert (Hzero : 0 <= 0 <= 0.6) by (clear; lra).
  destruct (Z.eqb_spec (target_months plan) 0) as [Htm | Htm];
    cbn [orb].
  - rewrite Qround_nd_2_zero.
    split; [ exact Hzero | split; [ reflexivity | intros Hne; contradiction ] ].
  - change (monthly_income =? of_int 0)%py with (Qeq_bool monthly_income 0).
    destruct (Qeq_bool_reflect monthly_income 0) as [Hz | Hnz].
    + rewrite Qround_nd_2_zero.
      split; [ exact Hzero | split; [ reflexivity | intros _ Hne; contradiction ] ].
    + split; [ | split; [ intros [Hc | Hc]; contradiction | intros _ _; exact Hcl ] ].
      clear - Hcl. lra.
Qed.

End SavingsExact.

(** ** SavingsPlanOptimizer, in binary64 *)

(** C5, amended: for all binary64 inputs and a horizon argument that is
    absent or of at most 50,000 months in absolute value, the function
    returns a plan whose savings rate is in [0, 0.6]; it is 0.0 when
    [target_months] is 0 or the monthly income is 0, and in [0.2, 0.6]
    otherwise.  The bound on the horizon keeps [(1 + monthly_return) ** n]
    inside the binary64 range, where [**] returns: the largest monthly
    return is 0.09 / 12, and 1.0075 ** 50000 is below 1e163. *)
Theorem savings_rate_range (pow_int : float -> Z -> float) (fuel : nat)
    (current_asset monthly_income target_amount : float) (risk_level : RiskLevel)
    (horizon : option Z) :
  (600 < fuel)%nat ->
  match horizon with
  | Some n => (-50000 <= n <= 50000)%Z
  | None => True
  end ->
  exists plan,
    calculate_optimal_savings_rate pow_int fuel current_asset monthly_income
      target_amount risk_level horizon = Some plan
    /\ ((of_int 0 <=? savings_rate plan)%py = true
        /\ (savings_rate plan <=? lit 0.6)%py = true)
    /\ (target_months plan = 0%Z \/ (monthly_income =? of_int 0)%py = true
        -> savings_rate plan = lit 0.0)
    /\ (target_months plan <> 0%Z -> (monthly_income =? of_int 0)%py = false
        -> (lit 0.2 <=? savings_rate plan)%py = true
           /\ (savings_rate plan <=? lit 0.6)%py = true).
Proof.
  intros Hfuel _.
  destruct (calculate_optimal_savings_rate_returns pow_int fuel current_asset
              monthly_income target_amount risk_level horizon Hfuel)
    as (plan & ms & Heq & Hrate).
  exists plan. split; [ exact Heq | ].
  rewrite Hrate. clear Hrate Heq.
  destruct (b64_rate_clamped (ms / monthly_income)%py) as (Hc0 & Hc1 & Hc2).
  assert (Hz : round_nd (lit (F := float) 0.0) 2 = lit 0.0) by (vm_compute; reflexivity).
  assert (Hz0 : (of_int (F := float) 0 <=? lit 0.0)%py = true
                /\ (lit (F := float) 0.0 <=? lit 0.6)%py = true)
    by (split; vm_compute; reflexivity).
  destruct (Z.eqb_spec (target_months plan) 0) as [Htm | Htm]; cbn [orb].
  - rewrite Hz.
    split; [ exact Hz0 | split; [ reflexivity | intros Hne; contradiction ] ].
  - destruct (monthly_income =? of_int 0)%py eqn:Hinc.
    + rewrite Hz.
      split; [ exact Hz0 | split; [ reflexivity | intros _ Hne; discriminate ] ].
    + split; [ split; assumption | split ].
      * intros [Hc | Hc]; [ contradiction | discriminate ].
      * intros _ _. split; assumption.
Qed.

Lemma savings_rate_range_witness :
  exists plan,
    calculate_optimal_savings_rate (fun (x : float) (n : Z) => x) 601
      (lit 50000) (lit 15000) (lit 1000000) medium (Some 120%Z) = Some plan
    /\ ((of_int 0 <=? savings_rate plan)%py = true
        /\ (savings_rate plan <=? lit 0.6)%py = true)
    /\ (target_months plan = 0%Z \/ (lit (F := float) 15000 =? of_int 0)%py = true
        -> savings_rate plan = lit 0.0)
    /\ (target_months plan <> 0%Z -> (lit (F := float) 15000 =? of_int 0)%py = false
        -> (lit 0.2 <=? savings_rate plan)%py = true
           /\ (savings_rate plan <=? lit 0.6)%py = true).
Proof.
  apply (savings_rate_range (fun (x : float) (n : Z) => x) 601
           (lit 50000) (lit 15000) (lit 1000000) medium (Some 120%Z));
    [ lia | cbn; lia ].
Defined.

(** ** RiskToleranceEstimator *)

(** The factor [calculate_risk_tolerance] returns is the local
    [time_pressure] rounded to two decimals, in any arithmetic. *)
Lemma returned_time_pressure {F : Type} `{PyFloat F}
    (math_log : F -> F) (pow : F -> F -> F)
    (ml_model : option (F -> F -> F -> F -> option F))
    (current_asset monthly_income : F) (goal : string) (age : Z) :
  time_pressure
    (factors (calculate_risk_tolerance math_log pow ml_model current_asset
                monthly_income goal age))
  = round_nd (time_pressure_factor current_asset monthly_income
                (calculate_target_amount goal)) 2.
Proof.
  unfold calculate_risk_tolerance.
  destruct ml_model as [predict|]; [ destruct (predict _ _ _ _) | ]; reflexivity.
Qed.



(** The same table in exact arithmetic, for every monthly income. *)
Lemma Qltb_true (x y : Q) : Qltb x y = true -> (x < y)%Q.
Proof. destruct (Qltb_reflect x y); [ trivial | discriminate ]. Qed.

Lemma Qltb_false (x y : Q) : Qltb x y = false -> (y <= x)%Q.
Proof. destruct (Qltb_reflect x y); [ discriminate | intros _; lra ]. Qed.

Lemma Qle_bool_true (x y : Q) : Qle_bool x y = true -> (x <= y)%Q.
Proof. apply Qle_bool_iff. Qed.

Lemma time_pressure_table_exact (current_asset monthly_income : Q) (goal : string) :
  time_pressure_table
    (of_int (calculate_target_amount goal) - current_asset)%py monthly_income
    (time_pressure_factor current_asset monthly_income (calculate_target_amount goal)).
Proof.
  unfold time_pressure_table, time_pressure_factor, months_to_target.
  set (gap := (of_int (calculate_target_amount goal) - current_asset)%py).
  set (capacity := (monthly_income * lit 0.3)%py).
  destruct (gap <=? of_int 0)%py eqn:Hgap.
  - split; [ reflexivity | discriminate ].
  - split; [ discriminate | intros _ ]. cbv zeta.
    change (capacity >? of_int 0)%py with (negb (capacity <=? of_int 0)%py).
    set (m := if (capacity <=? of_int 0)%py then of_int 999 else (gap / capacity)%py).
    replace (if negb (capacity <=? of_int 0)%py then (gap / capacity)%py else of_int 999)
      with m by (subst m; destruct (capacity <=? of_int 0)%py; reflexivity).
    clearbody m. clear.
    change (fltb (F := Q)) with Qltb. change (fleb (F := Q)) with Qle_bool.
    change (of_int (F := Q) 0) with 0%Q. change (of_int (F := Q) 12) with 12%Q.
    change (of_int (F := Q) 60) with 60%Q.
    destruct (Qle_bool m 0) eqn:H0.
    { apply Qle_bool_true in H0.
      split; [ reflexivity | split ].
      - intros Hge _. apply Qle_bool_true in Hge. lra.
      - intros Hge. apply Qle_bool_true in Hge. lra. }
    destruct (Qltb m 12) eqn:H12.
    { apply Qltb_true in H12.
      split; [ reflexivity | split ].
      - intros Hge _. apply Qle_bool_true in Hge. lra.
      - intros Hge. apply Qle_bool_true in Hge. lra. }
    destruct (Qltb m 60) eqn:H60.
    { apply Qltb_true in H60.
      split; [ discriminate | split ].
      - intros _ _. reflexivity.
      - intros Hge. apply Qle_bool_true in Hge. lra. }
    split; [ discriminate | split ].
    + intros _ Hlt. discriminate.
    + intros _. reflexivity.
Qed.


(** ** MonteCarloSimulator *)

Section MonteCarloProperties.

Context {F : Type} `{PyFloat F}.
Variable math_sqrt : F -> F.
Variable Rng : Type.
Variable gauss : Rng -> F -> F -> F * Rng.

(** With no month to walk, every trial ends where it started and the
    generator is left untouched. *)
Lemma simulate_all_no_months (simulations : nat)
    (current_asset monthly_save monthly_return monthly_vol : F) (g : Rng) :
  simulate_all gauss simulations current_asset monthly_save monthly_return
    monthly_vol 0 g = (repeat current_asset simulations, g).
Proof.
  induction simulations as [|n IH]; [ reflexivity | ].
  cbn [simulate_all simulate_path]. rewrite IH. reflexivity.
Qed.

Lemma sort_insert_repeat (x : F) (n : nat) :
  sort_insert x (repeat x n) = x :: repeat x n.
Proof.
  induction n as [|n IH]; [ reflexivity | ].
  cbn [repeat sort_insert]. destruct (x <? x)%py; [ rewrite IH | ]; reflexivity.
Qed.

Lemma list_sort_repeat (x : F) (n : nat) :
  list_sort (repeat x n) = repeat x n.
Proof.
  induction n as [|n IH]; [ reflexivity | ].
  unfold list_sort in *. cbn [repeat fold_right]. rewrite IH.
  apply sort_insert_repeat.
Qed.

Lemma list_index_repeat (x : F) (n : nat) (i : Z) :
  (0 <= i < Z.of_nat n)%Z -> list_index (repeat x n) i = Some x.
Proof.
  intros [Hlo Hhi]. unfold list_index.
  destruct (Z.ltb_spec i 0) as [Hneg | _]; [ lia | ].
  apply nth_error_repeat. lia.
Qed.

(** The degenerate run, step by step. *)
Lemma monte_carlo_degenerate
    (current_asset monthly_save expected_return volatility : F)
    (months simulations : Z) (g : Rng) :
  (months <= 0)%Z -> (1 <= simulations)%Z ->
  (0 <= trunc (of_int simulations * lit 0.05)%py < simulations)%Z ->
  (0 <= trunc (of_int simulations * lit 0.95)%py < simulations)%Z ->
  monte_carlo_simulation math_sqrt gauss current_asset monthly_save
    expected_return volatility months simulations g
  = (Some {| expected_value :=
               round_nd (py_sum (repeat current_asset (Z.to_nat simulations))
                         / of_int simulations)%py 2;
             median := round_nd current_asset 2;
             p5 := round_nd current_asset 2;
             p95 := round_nd current_asset 2;
             confidence_interval :=
               [round_nd current_asset 2; round_nd current_asset 2] |}, g).
Proof.
  intros Hm Hs H5 H95. unfold monte_carlo_simulation.
  replace (Z.to_nat months) with 0%nat by lia.
  rewrite simulate_all_no_months, list_sort_repeat.
  rewrite (list_index_repeat _ _ (simulations / 2)%Z)
    by (rewrite Z2Nat.id by lia;
        split; [ apply Z.div_pos; lia | apply Z.div_lt; lia ]).
  rewrite (list_index_repeat _ _ (trunc (of_int simulations * lit 0.05)%py))
    by (rewrite Z2Nat.id by lia; exact H5).
  rewrite (list_index_repeat _ _ (trunc (of_int simulations * lit 0.95)%py))
    by (rewrite Z2Nat.id by lia; exact H95).
  rewrite repeat_length, Z2Nat.id by lia. reflexivity.
Qed.

End MonteCarloProperties.



(** ** MonteCarloSimulator, in exact arithmetic *)

Section MonteCarloExact.

Local Open Scope Q_scope.





End MonteCarloExact.




(** * Further properties of the model

    Properties read off the code beyond the specification's statements;
    each is numbered X1, X2, ... *)

(** ** TargetAmountEstimator and the goal type of the API layer *)

(** X1: the goal type that [determine_goal_type] ([main.py]) gives a goal
    text and the amount that [calculate_target_amount] gives it are
    decided by the same keyword tests, so the amount is a function of the
    type: 1,000,000 for house, 300,000 for car, 500,000 for education,
    2,000,000 for freedom and 500,000 for general. *)
Theorem target_amount_by_goal_type (goal : string) :
  (determine_goal_type goal = "house"%string
   /\ calculate_target_amount goal = 1000000%Z)
  \/ (determine_goal_type goal = "car"%string
      /\ calculate_target_amount goal = 300000%Z)
  \/ (determine_goal_type goal = "education"%string
      /\ calculate_target_amount goal = 500000%Z)
  \/ (determine_goal_type goal = "freedom"%string
      /\ calculate_target_amount goal = 2000000%Z)
  \/ (determine_goal_type goal = "general"%string
      /\ calculate_target_amount goal = 500000%Z).
Proof.
  unfold calculate_target_amount, determine_goal_type.
  destruct (contains "买房" goal || contains "房" goal);
    [ left; split; reflexivity | right ].
  destruct (contains "买车" goal || contains "车" goal);
    [ left; split; reflexivity | right ].
  destruct (contains "教育" goal); [ left; split; reflexivity | right ].
  destruct (contains "自由" goal || contains "退休" goal);
    [ left | right ]; split; reflexivity.
Qed.

(** ** MonteCarloSimulator: draws, failure and order *)

Section MonteCarloDraws.

Context {F : Type} `{PyFloat F}.
Variable math_sqrt : F -> F.
Variable Rng : Type.
Variable gauss : Rng -> F -> F -> F * Rng.

Lemma after_draws_add (mu sigma : F) (n m : nat) (g : Rng) :
  after_draws gauss mu sigma (n + m) g
  = after_draws gauss mu sigma m (after_draws gauss mu sigma n g).
Proof.
  revert g. induction n as [|n IH]; intro g; cbn; [ reflexivity | apply IH ].
Qed.

(** A path of [months] months draws [months] samples, whatever the asset. *)
Lemma simulate_path_draws (months : nat) (monthly_save monthly_return monthly_vol : F) :
  forall (asset : F) (g : Rng),
    snd (simulate_path gauss months monthly_save monthly_return monthly_vol asset g)
    = after_draws gauss monthly_return monthly_vol months g.
Proof.
  induction months as [|months IH]; intros asset g; cbn; [ reflexivity | ].
  destruct (gauss g monthly_return monthly_vol) as [random_return g']. cbn.
  apply IH.
Qed.

Lemma simulate_all_draws (simulations : nat)
    (current_asset monthly_save monthly_return monthly_vol : F) (months : nat) :
  forall g : Rng,
    snd (simulate_all gauss simulations current_asset monthly_save monthly_return
           monthly_vol months g)
    = after_draws gauss monthly_return monthly_vol (simulations * months) g.
Proof.
  induction simulations as [|simulations IH]; intro g; cbn [simulate_all Nat.mul];
    [ reflexivity | ].
  pose proof (simulate_path_draws months monthly_save monthly_return monthly_vol
                current_asset g) as Hp.
  destruct (simulate_path gauss months monthly_save monthly_return monthly_vol
              current_asset g) as [asset g'].
  specialize (IH g').
  destruct (simulate_all gauss simulations current_asset monthly_save monthly_return
              monthly_vol months g') as [rest g''].
  cbn [snd] in *. rewrite after_draws_add, <- Hp. exact IH.
Qed.

(** The simulation appends one final value per trial, and sorting keeps
    them all. *)
Lemma simulate_all_length (simulations : nat)
    (current_asset monthly_save monthly_return monthly_vol : F) (months : nat) :
  forall g : Rng,
    List.length (fst (simulate_all gauss simulations current_asset monthly_save
                        monthly_return monthly_vol months g)) = simulations.
Proof.
  induction simulations as [|simulations IH]; intro g; cbn [simulate_all];
    [ reflexivity | ].
  destruct (simulate_path gauss months monthly_save monthly_return monthly_vol
              current_asset g) as [asset g'].
  specialize (IH g').
  destruct (simulate_all gauss simulations current_asset monthly_save monthly_return
              monthly_vol months g') as [rest g''].
  cbn [fst List.length] in *. now rewrite IH.
Qed.

Lemma sort_insert_length (x : F) (l : list F) :
  List.length (sort_insert x l) = S (List.length l).
Proof.
  induction l as [|y l IH]; cbn [sort_insert]; [ reflexivity | ].
  destruct (y <? x)%py; cbn [List.length]; [ now rewrite IH | reflexivity ].
Qed.

Lemma list_sort_length (l : list F) : List.length (list_sort l) = List.length l.
Proof.
  induction l as [|x l IH]; cbn [list_sort fold_right]; [ reflexivity | ].
  fold (list_sort l). rewrite sort_insert_length, IH. reflexivity.
Qed.

(** X2: in any arithmetic, [monte_carlo_simulation] leaves the generator
    after exactly [simulations * months] draws of
    [random.gauss(expected_return / 12, volatility / sqrt(12))], whatever
    the current asset and the monthly saving are, and whether or not it
    returns a result. *)
Theorem monte_carlo_draw_count
    (current_asset monthly_save expected_return volatility : F)
    (months simulations : Z) (g : Rng) :
  snd (monte_carlo_simulation math_sqrt gauss current_asset monthly_save
         expected_return volatility months simulations g)
  = after_draws gauss (expected_return / of_int 12)%py
      (volatility / math_sqrt (of_int 12))%py
      (Z.to_nat simulations * Z.to_nat months) g.
Proof.
  unfold monte_carlo_simulation.
  pose proof (simulate_all_draws (Z.to_nat simulations) current_asset monthly_save
                (expected_return / of_int 12)%py
                (volatility / math_sqrt (of_int 12))%py (Z.to_nat months) g) as Hd.
  destruct (simulate_all gauss (Z.to_nat simulations) current_asset monthly_save
              (expected_return / of_int 12)%py
              (volatility / math_sqrt (of_int 12))%py (Z.to_nat months) g)
    as [final_values g'].
  exact Hd.
Qed.

(** X3: in any arithmetic, with [simulations <= 0] the simulation draws
    nothing and fails: the list of final values is empty, so the median
    lookup [final_values[simulations // 2]] raises [IndexError]. *)
Theorem monte_carlo_no_trials
    (current_asset monthly_save expected_return volatility : F)
    (months simulations : Z) (g : Rng) :
  (simulations <= 0)%Z ->
  monte_carlo_simulation math_sqrt gauss current_asset monthly_save
    expected_return volatility months simulations g = (None, g).
Proof.
  intro Hs. unfold monte_carlo_simulation.
  replace (Z.to_nat simulations) with 0%nat by lia.
  cbn [simulate_all list_sort fold_right].
  assert (Hidx : list_index (@nil F) (simulations / 2) = None).
  { unfold list_index. cbn [List.length Z.of_nat].
    destruct (simulations / 2 <? 0)%Z.
    - destruct (simulations / 2 <? - 0)%Z; [ reflexivity | ].
      now destruct (Z.to_nat (0 + simulations / 2)).
    - now destruct (Z.to_nat (simulations / 2)). }
  rewrite Hidx. reflexivity.
Qed.

End MonteCarloDraws.

Lemma monte_carlo_no_trials_witness :
  monte_carlo_simulation (F := float) PrimFloat.sqrt
    (fun (g : nat) (mu sigma : float) => (mu, S g))
    (lit 50000) (lit 4500) (lit 0.07) (lit 0.08) 12 0 0%nat = (None, 0%nat).
Proof.
  apply (monte_carlo_no_trials (F := float) PrimFloat.sqrt nat
           (fun (g : nat) (mu sigma : float) => (mu, S g))
           (lit 50000) (lit 4500) (lit 0.07) (lit 0.08) 12 0 0%nat).
  lia.
Defined.

(** *** Exact arithmetic: rounding keeps the order *)

Section RoundingOrder.

Local Open Scope Q_scope.

Lemma round_half_even_mono (x y : Q) :
  x <= y -> (round_half_even x <= round_half_even y)%Z.
Proof.
  intro Hxy.
  destruct (Z_le_gt_dec (round_half_even x) (round_half_even y)) as [Hle | Hgt];
    [ exact Hle | exfalso ].
  pose proof (round_half_even_spec x) as [_ Hx].
  pose proof (round_half_even_spec y) as [Hy _].
  assert (Hz : inject_Z (round_half_even y) + 1 <= inject_Z (round_half_even x)).
  { change 1 with (inject_Z 1). rewrite <- inject_Z_plus, <- Zle_Qle. lia. }
  assert (Heq : x == y) by lra.
  apply round_half_even_comp in Heq. lia.
Qed.

Lemma Qround_nd_2_mono (x y : Q) : x <= y -> Qround_nd x 2 <= Qround_nd y 2.
Proof.
  intro Hxy. rewrite !Qround_nd_2.
  assert (Hm : (round_half_even (x * 100) <= round_half_even (y * 100))%Z)
    by (apply round_half_even_mono; lra).
  rewrite Zle_Qle in Hm.
  unfold Qdiv. apply Qmult_le_compat_r; [ exact Hm | discriminate ].
Qed.

Lemma Qround_nd_3_mono (x y : Q) : x <= y -> Qround_nd x 3 <= Qround_nd y 3.
Proof.
  intro Hxy. rewrite !Qround_nd_3.
  assert (Hm : (round_half_even (x * 1000) <= round_half_even (y * 1000))%Z)
    by (apply round_half_even_mono; lra).
  rewrite Zle_Qle in Hm.
  unfold Qdiv. apply Qmult_le_compat_r; [ exact Hm | discriminate ].
Qed.

Lemma round_half_even_inject_Z (k : Z) : round_half_even (inject_Z k) = k.
Proof.
  assert (H : (k <= round_half_even (inject_Z k) <= k)%Z)
    by (apply round_half_even_between; lra).
  lia.
Qed.

(** Rounding to two decimals leaves a number of hundredths as it is. *)
Lemma Qround_nd_2_hundredths (x : Q) (k : Z) :
  x == inject_Z k / 100 -> Qround_nd x 2 == inject_Z k / 100.
Proof.
  intro Hx. rewrite Qround_nd_2.
  rewrite (round_half_even_comp (x * 100) (inject_Z k)); [ | rewrite Hx; field ].
  rewrite round_half_even_inject_Z. reflexivity.
Qed.

Lemma Qround_nd_2_unit (x : Q) : 0 <= x <= 1 -> 0 <= Qround_nd x 2 <= 1.
Proof.
  intros [H0 H1]. split.
  - apply Qle_trans with (Qround_nd 0 2);
      [ vm_compute; discriminate | apply Qround_nd_2_mono; exact H0 ].
  - apply Qle_trans with (Qround_nd 1 2);
      [ apply Qround_nd_2_mono; exact H1 | vm_compute; discriminate ].
Qed.

Lemma Qround_nd_3_unit (x : Q) : 0 <= x <= 1 -> 0 <= Qround_nd x 3 <= 1.
Proof.
  intros [H0 H1]. split.
  - apply Qle_trans with (Qround_nd 0 3);
      [ vm_compute; discriminate | apply Qround_nd_3_mono; exact H0 ].
  - apply Qle_trans with (Qround_nd 1 3);
      [ apply Qround_nd_3_mono; exact H1 | vm_compute; discriminate ].
Qed.

End RoundingOrder.

Section MonteCarloOrder.

Local Open Scope Q_scope.

(** [list.sort()] sorts: the insertion sort returns a sorted list. *)
Lemma sort_insert_Forall (P : Q -> Prop) (x : Q) (l : list Q) :
  P x -> Forall P l -> Forall P (sort_insert x l).
Proof.
  intros Hx Hl. induction Hl as [|y l Hy Hl IH]; cbn [sort_insert].
  - constructor; [ exact Hx | constructor ].
  - destruct (y <? x)%py; constructor; auto.
Qed.

Lemma sort_insert_sorted (x : Q) (l : list Q) :
  StronglySorted Qle l -> StronglySorted Qle (sort_insert x l).
Proof.
  intro Hs. induction Hs as [|y l Hs IH Hy]; cbn [sort_insert].
  - constructor; constructor.
  - cbn [fltb QFloat]. destruct (Qltb_reflect y x) as [Hlt | Hge].
    + constructor; [ exact IH | ].
      apply sort_insert_Forall; [ lra | exact Hy ].
    + constructor; [ constructor; assumption | ].
      constructor; [ lra | ].
      eapply Forall_impl; [ | exact Hy ]. intros z Hz. cbn beta in Hz. lra.
Qed.

Lemma list_sort_sorted (l : list Q) : StronglySorted Qle (list_sort l).
Proof.
  induction l as [|x l IH]; cbn [list_sort fold_right]; [ constructor | ].
  apply sort_insert_sorted. exact IH.
Qed.

Lemma sorted_nth_error (l : list Q) :
  StronglySorted Qle l ->
  forall (i j : nat) (x y : Q),
    (i <= j)%nat -> nth_error l i = Some x -> nth_error l j = Some y -> x <= y.
Proof.
  intro Hs. induction Hs as [|z l Hs IH Hz]; intros i j x y Hij Hi Hj.
  - destruct i; discriminate.
  - destruct i as [|i], j as [|j]; cbn [nth_error] in Hi, Hj.
    + injection Hi as <-. injection Hj as <-. lra.
    + injection Hi as <-. rewrite Forall_forall in Hz.
      apply Hz. eapply nth_error_In. exact Hj.
    + lia.
    + apply (IH i j); [ lia | assumption | assumption ].
Qed.

Lemma list_index_in_range (l : list Q) (i : Z) :
  (0 <= i < Z.of_nat (List.length l))%Z ->
  exists x, list_index l i = Some x /\ nth_error l (Z.to_nat i) = Some x.
Proof.
  intro Hi. unfold list_index.
  destruct (Z.ltb_spec i 0) as [Hneg | _]; [ lia | ].
  destruct (nth_error l (Z.to_nat i)) as [x|] eqn:E.
  - exists x. split; reflexivity.
  - apply nth_error_None in E. lia.
Qed.

(** The three indices are in range and in order:
    [int(n * 0.05) <= n // 2 <= int(n * 0.95) < n]. *)
Lemma percentile_indices (simulations : Z) :
  (1 <= simulations)%Z ->
  (0 <= trunc (F := Q) (of_int simulations * lit 0.05)%py <= simulations / 2)%Z
  /\ (simulations / 2 <= trunc (F := Q) (of_int simulations * lit 0.95)%py
      < simulations)%Z.
Proof.
  intro Hs. q_unfold. unfold Qtrunc. cbn [Qnum Qden Qmult inject_Z Pos.mul].
  rewrite !Z.quot_div_nonneg by lia.
  Z.div_mod_to_equations. lia.
Qed.

Lemma monte_carlo_sorted_percentiles (math_sqrt : Q -> Q) (Rng : Type)
    (gauss : Rng -> Q -> Q -> Q * Rng)
    (current_asset monthly_save expected_return volatility : Q)
    (months simulations : Z) (g : Rng) :
  (1 <= simulations)%Z ->
  exists r,
    fst (monte_carlo_simulation math_sqrt gauss current_asset monthly_save
           expected_return volatility months simulations g) = Some r
    /\ p5 r <= median r /\ median r <= p95 r
    /\ confidence_interval r = [p5 r; p95 r].
Proof.
  intro Hs. unfold monte_carlo_simulation.
  pose proof (simulate_all_length Rng gauss (Z.to_nat simulations) current_asset
                monthly_save (expected_return / of_int 12)%py
                (volatility / math_sqrt (of_int 12))%py (Z.to_nat months) g) as Hlen.
  destruct (simulate_all gauss (Z.to_nat simulations) current_asset monthly_save
              (expected_return / of_int 12)%py
              (volatility / math_sqrt (of_int 12))%py (Z.to_nat months) g)
    as [final_values g'].
  cbn [fst] in Hlen |- *.
  pose proof (list_sort_sorted final_values) as Hsorted.
  pose proof (list_sort_length final_values) as Hlen'.
  rewrite Hlen in Hlen'.
  destruct (percentile_indices simulations Hs) as [[H5a H5b] [H95a H95b]].
  assert (Hmed : (0 <= simulations / 2 < simulations)%Z)
    by (Z.div_mod_to_equations; lia).
  destruct (list_index_in_range (list_sort final_values) (simulations / 2))
    as (vm & Hvm & Hnm); [ lia | ].
  destruct (list_index_in_range (list_sort final_values)
              (trunc (F := Q) (of_int simulations * lit 0.05)%py))
    as (v5 & Hv5 & Hn5);
    [ rewrite Hlen', Z2Nat.id by lia; split;
      [ exact H5a | eapply Z.le_lt_trans; [ exact H5b | apply Hmed ] ] | ].
  destruct (list_index_in_range (list_sort final_values)
              (trunc (F := Q) (of_int simulations * lit 0.95)%py))
    as (v95 & Hv95 & Hn95);
    [ rewrite Hlen', Z2Nat.id by lia; split;
      [ eapply Z.le_trans; [ apply Hmed | exact H95a ] | exact H95b ] | ].
  rewrite Hvm, Hv5, Hv95.
  eexists. split; [ reflexivity | ].
  cbn [p5 median p95 confidence_interval round_nd QFloat].
  split; [ | split; [ | reflexivity ] ]; apply Qround_nd_2_mono.
  - refine (sorted_nth_error _ Hsorted _ _ v5 vm _ Hn5 Hnm).
    apply Z2Nat.inj_le; [ exact H5a | apply Hmed | exact H5b ].
  - refine (sorted_nth_error _ Hsorted _ _ vm v95 _ Hnm Hn95).
    apply Z2Nat.inj_le;
      [ apply Hmed | eapply Z.le_trans; [ apply Hmed | exact H95a ] | exact H95a ].
Qed.

(** X4: in exact arithmetic, for every number of trials [simulations >=
    1], every horizon and every random stream, the simulation returns a
    result whose percentiles are in order, [p5 <= median <= p95], and
    whose confidence interval is [[p5, p95]]. *)
Theorem monte_carlo_percentiles_ordered (math_sqrt : Q -> Q) (Rng : Type)
    (gauss : Rng -> Q -> Q -> Q * Rng)
    (current_asset monthly_save expected_return volatility : Q)
    (months simulations : Z) (g : Rng) :
  (1 <= simulations)%Z ->
  exists r,
    fst (monte_carlo_simulation math_sqrt gauss current_asset monthly_save
           expected_return volatility months simulations g) = Some r
    /\ p5 r <= median r /\ median r <= p95 r
    /\ confidence_interval r = [p5 r; p95 r].
Proof.
  exact (monte_carlo_sorted_percentiles math_sqrt Rng gauss current_asset
           monthly_save expected_return volatility months simulations g).
Qed.

End MonteCarloOrder.

Lemma monte_carlo_percentiles_ordered_witness :
  exists r,
    fst (monte_carlo_simulation (F := Q) (fun x => x)
           (fun (g : nat) (mu sigma : Q) =>
              (if Nat.even g then mu + sigma else mu - sigma, S g)%Q)
           50000 4500 0.07 0.08 2 5 0%nat) = Some r
    /\ (p5 r <= median r)%Q /\ (median r <= p95 r)%Q
    /\ confidence_interval r = [p5 r; p95 r].
Proof.
  apply (monte_carlo_percentiles_ordered (fun x => x) nat
           (fun (g : nat) (mu sigma : Q) =>
              (if Nat.even g then mu + sigma else mu - sigma, S g)%Q)
           50000 4500 0.07 0.08 2 5 0%nat).
  lia.
Defined.

(** ** SavingsPlanOptimizer: the horizon the search finds *)

Section HorizonLeast.

Context {F : Type} `{PyFloat F}.

(** The loop invariant of the horizon search: the balance is the one
    after [months] months, and it was below the target in every month
    before. *)
Lemma horizon_search_invariant (target_amount monthly_return monthly_save a0 : F) :
  forall (fuel : nat) (months : Z) (accumulated' : F) (months' : Z),
    (0 <= months)%Z ->
    (forall k, (k < Z.to_nat months)%nat ->
       (accumulated_after monthly_return monthly_save a0 k <? target_amount)%py = true) ->
    horizon_search fuel target_amount monthly_return monthly_save
      (accumulated_after monthly_return monthly_save a0 (Z.to_nat months)) months
    = Some (accumulated', months') ->
    (months <= months')%Z
    /\ accumulated'
       = accumulated_after monthly_return monthly_save a0 (Z.to_nat months')
    /\ (forall k, (k < Z.to_nat months')%nat ->
          (accumulated_after monthly_return monthly_save a0 k <? target_amount)%py = true)
    /\ ((accumulated' <? target_amount)%py = false \/ (600 <= months')%Z).
Proof.
  induction fuel as [|fuel IH]; intros months acc' months' Hm Hbelow Hs;
    [ discriminate | ].
  cbn [horizon_search] in Hs.
  destruct (accumulated_after monthly_return monthly_save a0 (Z.to_nat months)
            <? target_amount)%py eqn:Hlt; cbn [andb] in Hs.
  - destruct (Z.ltb_spec months 600) as [Hlt600 | Hge600].
    + replace (accumulated_after monthly_return monthly_save a0 (Z.to_nat months)
               * (of_int 1 + monthly_return) + monthly_save)%py
        with (accumulated_after monthly_return monthly_save a0
                (Z.to_nat (months + 1))) in Hs
        by (replace (Z.to_nat (months + 1)) with (S (Z.to_nat months)) by lia;
            reflexivity).
      assert (Hbelow' : forall k, (k < Z.to_nat (months + 1))%nat ->
                (accumulated_after monthly_return monthly_save a0 k
                 <? target_amount)%py = true).
      { intros k Hk.
        destruct (Nat.eq_dec k (Z.to_nat months)) as [-> | Hne];
          [ exact Hlt | apply Hbelow; lia ]. }
      destruct (IH (months + 1)%Z acc' months' ltac:(lia) Hbelow' Hs)
        as (Hle & Hacc & Hb & Hstop).
      repeat split; try assumption. lia.
    + injection Hs as <- <-. repeat split; try assumption; lia.
  - injection Hs as <- <-. repeat split; try assumption; try lia.
    left. exact Hlt.
Qed.

Lemma horizon_plan_least (pow_int : F -> Z -> F) (fuel : nat)
    (current_asset monthly_income target_amount : F) (risk_level : RiskLevel) :
  (600 < fuel)%nat ->
  (target_amount - current_asset <=? of_int 0)%py = false ->
  let balance :=
    accumulated_after (expected_return (risk_profiles risk_level) / of_int 12)%py
      (monthly_income * lit 0.3)%py current_asset in
  exists plan,
    calculate_optimal_savings_rate pow_int fuel current_asset monthly_income
      target_amount risk_level None = Some plan
    /\ (0 <= target_months plan <= 600)%Z
    /\ (forall k, (0 <= k < target_months plan)%Z ->
          (balance (Z.to_nat k) <? target_amount)%py = true)
    /\ ((target_months plan < 600)%Z ->
        (balance (Z.to_nat (target_months plan)) <? target_amount)%py = false).
Proof.
  intros Hfuel Hgap balance.
  destruct (@horizon_search_terminates F _ target_amount
              (expected_return (risk_profiles risk_level) / of_int 12)%py
              (monthly_income * lit 0.3)%py fuel current_asset 0%Z)
    as (a & m & Heq & Hle); [ lia | simpl; lia | ].
  pose proof (horizon_search_invariant target_amount
                (expected_return (risk_profiles risk_level) / of_int 12)%py
                (monthly_income * lit 0.3)%py current_asset fuel 0%Z a m
                (Z.le_refl 0)) as Hinv.
  cbn [Z.to_nat accumulated_after] in Hinv.
  destruct (Hinv ltac:(intros k Hk; lia) Heq) as (_ & Hacc & Hbelow & Hstop).
  assert (Hplan : exists plan,
             calculate_optimal_savings_rate pow_int fuel current_asset monthly_income
               target_amount risk_level None = Some plan
             /\ target_months plan = m).
  { unfold calculate_optimal_savings_rate, savings_horizon.
    rewrite Hgap, Heq.
    replace (if (m <? 600)%Z then m else 600%Z) with m
      by (destruct (Z.ltb_spec m 600); lia).
    match goal with
    | |- context [if ?c then (_, _) else _] => destruct c
    end; eexists; (split; [ reflexivity | reflexivity ]). }
  destruct Hplan as (plan & Hplan & Hm).
  exists plan. rewrite Hm.
  split; [ exact Hplan | split; [ lia | split ] ].
  - intros k Hk. apply Hbelow. lia.
  - intro Hlt. destruct Hstop as [Hstop | Hstop]; [ | lia ].
    unfold balance. rewrite <- Hacc. exact Hstop.
Qed.

(** X5: in any arithmetic, when the gap is positive and no horizon is
    given, the plan's [target_months] is the first month at which the
    balance (compounded monthly, with 30% of the income added each month)
    is no longer below the target, or 600 if there is no such month
    before: the balance is below the target in every earlier month, and
    not below it at [target_months] when [target_months < 600]. *)
Theorem savings_horizon_is_least (pow_int : F -> Z -> F) (fuel : nat)
    (current_asset monthly_income target_amount : F) (risk_level : RiskLevel) :
  (600 < fuel)%nat ->
  (target_amount - current_asset <=? of_int 0)%py = false ->
  let balance :=
    accumulated_after (expected_return (risk_profiles risk_level) / of_int 12)%py
      (monthly_income * lit 0.3)%py current_asset in
  exists plan,
    calculate_optimal_savings_rate pow_int fuel current_asset monthly_income
      target_amount risk_level None = Some plan
    /\ (0 <= target_months plan <= 600)%Z
    /\ (forall k, (0 <= k < target_months plan)%Z ->
          (balance (Z.to_nat k) <? target_amount)%py = true)
    /\ ((target_months plan < 600)%Z ->
        (balance (Z.to_nat (target_months plan)) <? target_amount)%py = false).
Proof. exact (horizon_plan_least pow_int fuel current_asset monthly_income
                target_amount risk_level). Qed.

(** With no horizon given, whether the plan has a horizon of 0 months is
    decided before the tier is looked at, and so are the amount saved and
    the savings rate. *)
Lemma plan_saving_tier_free (pow_int : F -> Z -> F) (fuel : nat)
    (current_asset monthly_income target_amount : F) (t1 t2 : RiskLevel) :
  (600 < fuel)%nat ->
  exists plan1 plan2,
    calculate_optimal_savings_rate pow_int fuel current_asset monthly_income
      target_amount t1 None = Some plan1
    /\ calculate_optimal_savings_rate pow_int fuel current_asset monthly_income
         target_amount t2 None = Some plan2
    /\ monthly_save plan1 = monthly_save plan2
    /\ savings_rate plan1 = savings_rate plan2
    /\ (target_months plan1 = 0%Z <-> target_months plan2 = 0%Z).
Proof.
  intro Hfuel.
  assert (Hplan : forall t,
    exists plan,
      calculate_optimal_savings_rate pow_int fuel current_asset monthly_income
        target_amount t None = Some plan
      /\ (target_months plan = 0%Z
          <-> ((target_amount - current_asset <=? of_int 0)%py = true
               \/ (current_asset <? target_amount)%py = false))
      /\ monthly_save plan
         = round_nd
             (if ((target_amount - current_asset <=? of_int 0)%py
                  || negb (current_asset <? target_amount)%py)
                 || (monthly_income =? of_int 0)%py
              then of_int 0
              else (monthly_income
                    * py_min (lit 0.6)
                        (py_max (lit 0.2)
                           (monthly_income * lit 0.3 / monthly_income)))%py) 2
      /\ savings_rate plan
         = round_nd
             (if ((target_amount - current_asset <=? of_int 0)%py
                  || negb (current_asset <? target_amount)%py)
                 || (monthly_income =? of_int 0)%py
              then lit 0.0
              else py_min (lit 0.6)
                     (py_max (lit 0.2)
                        (monthly_income * lit 0.3 / monthly_income)%py)) 2).
  { intro t. unfold calculate_optimal_savings_rate, savings_horizon.
    destruct (target_amount - current_asset <=? of_int 0)%py eqn:Hgap.
    - cbn [orb Z.eqb]. eexists. split; [ reflexivity | ].
      cbn [target_months monthly_save savings_rate].
      split; [ split; [ intros _; left; reflexivity | reflexivity ] | ].
      split; reflexivity.
    - destruct fuel as [|fuel']; [ lia | ]. cbn [horizon_search].
      destruct (current_asset <? target_amount)%py eqn:Hlt; cbn [andb negb orb].
      + change (0 <? 600)%Z with true. cbv iota.
        destruct (@horizon_search_terminates F _ target_amount
                    (expected_return (risk_profiles t) / of_int 12)%py
                    (monthly_income * lit 0.3)%py fuel'
                    (current_asset
                     * (of_int 1 + expected_return (risk_profiles t) / of_int 12)
                     + monthly_income * lit 0.3)%py (0 + 1)%Z)
          as (a & m & Heq & Hle); [ lia | simpl; lia | ].
        rewrite Heq.
        replace (if (m <? 600)%Z then m else 600%Z) with m
          by (destruct (Z.ltb_spec m 600); lia).
        destruct (Z.eqb_spec m 0) as [Hm0 | Hm0]; [ lia | ]. cbn [orb].
        destruct (monthly_income =? of_int 0)%py;
          (eexists; split; [ reflexivity | ]);
          cbn [target_months monthly_save savings_rate];
          (split; [ split; [ intro; lia | intros [Hc | Hc]; discriminate ] | ]);
          split; reflexivity.
      + cbn [Z.ltb Z.compare Z.eqb orb].
        eexists; split; [ reflexivity | ].
        cbn [target_months monthly_save savings_rate].
        split; [ split; [ intros _; right; reflexivity | reflexivity ] | ].
        split; reflexivity. }
  destruct (Hplan t1) as (p1 & Hp1 & Hz1 & Hs1 & Hr1).
  destruct (Hplan t2) as (p2 & Hp2 & Hz2 & Hs2 & Hr2).
  exists p1, p2.
  split; [ exact Hp1 | split; [ exact Hp2 | split; [ | split ] ] ].
  - rewrite Hs1, Hs2. reflexivity.
  - rewrite Hr1, Hr2. reflexivity.
  - rewrite Hz1, Hz2. reflexivity.
Qed.

(** X6: in any arithmetic, with no horizon given the risk tier changes the
    horizon and the expected final amount of a plan only: two tiers give
    the same [monthly_save] and the same [savings_rate], and a horizon of
    0 months for one tier is a horizon of 0 months for the other. *)
Theorem saving_independent_of_tier (pow_int : F -> Z -> F) (fuel : nat)
    (current_asset monthly_income target_amount : F) (t1 t2 : RiskLevel) :
  (600 < fuel)%nat ->
  exists plan1 plan2,
    calculate_optimal_savings_rate pow_int fuel current_asset monthly_income
      target_amount t1 None = Some plan1
    /\ calculate_optimal_savings_rate pow_int fuel current_asset monthly_income
         target_amount t2 None = Some plan2
    /\ monthly_save plan1 = monthly_save plan2
    /\ savings_rate plan1 = savings_rate plan2
    /\ (target_months plan1 = 0%Z <-> target_months plan2 = 0%Z).
Proof.
  exact (plan_saving_tier_free pow_int fuel current_asset monthly_income
           target_amount t1 t2).
Qed.

Lemma default_plan_horizon_range (pow_int : F -> Z -> F) (fuel : nat)
    (current_asset monthly_income target_amount : F) (risk_level : RiskLevel) :
  (600 < fuel)%nat ->
  exists plan,
    calculate_optimal_savings_rate pow_int fuel current_asset monthly_income
      target_amount risk_level None = Some plan
    /\ (0 <= target_months plan <= 600)%Z.
Proof.
  intro Hfuel.
  destruct (target_amount - current_asset <=? of_int 0)%py eqn:Hgap.
  - rewrite (goal_met_plan pow_int fuel current_asset monthly_income target_amount
               risk_level Hgap).
    eexists. split; [ reflexivity | cbn [target_months]; lia ].
  - destruct (@horizon_search_terminates F _ target_amount
                (expected_return (risk_profiles risk_level) / of_int 12)%py
                (monthly_income * lit 0.3)%py fuel current_asset 0%Z)
      as (a & m & Heq & Hle); [ lia | simpl; lia | ].
    unfold calculate_optimal_savings_rate, savings_horizon.
    rewrite Hgap, Heq.
    destruct (Z.ltb_spec m 600);
      match goal with
      | |- context [if ?c then (_, _) else _] => destruct c
      end; eexists; (split; [ reflexivity | cbn [target_months]; lia ]).
Qed.

End HorizonLeast.

Lemma savings_horizon_is_least_witness :
  let balance :=
    accumulated_after (F := float)
      (expected_return (risk_profiles medium) / of_int 12)%py
      (lit 15000 * lit 0.3)%py (lit 50000) in
  exists plan,
    calculate_optimal_savings_rate (fun (x : float) (n : Z) => x) 601
      (lit 50000) (lit 15000) (lit 1000000) medium None = Some plan
    /\ (0 <= target_months plan <= 600)%Z
    /\ (forall k, (0 <= k < target_months plan)%Z ->
          (balance (Z.to_nat k) <? lit 1000000)%py = true)
    /\ ((target_months plan < 600)%Z ->
        (balance (Z.to_nat (target_months plan)) <? lit 1000000)%py = false).
Proof.
  apply (savings_horizon_is_least (F := float) (fun (x : float) (n : Z) => x) 601
           (lit 50000) (lit 15000) (lit 1000000) medium);
    [ lia | vm_compute; reflexivity ].
Defined.

Lemma saving_independent_of_tier_witness :
  exists plan1 plan2,
    calculate_optimal_savings_rate (fun (x : float) (n : Z) => x) 601
      (lit 50000) (lit 15000) (lit 1000000) low None = Some plan1
    /\ calculate_optimal_savings_rate (fun (x : float) (n : Z) => x) 601
         (lit 50000) (lit 15000) (lit 1000000) high None = Some plan2
    /\ monthly_save plan1 = monthly_save plan2
    /\ savings_rate plan1 = savings_rate plan2
    /\ (target_months plan1 = 0%Z <-> target_months plan2 = 0%Z).
Proof.
  apply (saving_independent_of_tier (F := float) (fun (x : float) (n : Z) => x) 601
           (lit 50000) (lit 15000) (lit 1000000) low high).
  lia.
Defined.

(** *** Exact arithmetic: [min], [max] and products *)

Ltac q_lits :=
  change (inject_Z 0) with 0%Q in *;
  repeat match goal with
    | |- context [inject_Z (Zpos ?p)] =>
        change (inject_Z (Zpos p)) with (Zpos p # 1)%Q in *
    | H : context [inject_Z (Zpos ?p)] |- _ =>
        change (inject_Z (Zpos p)) with (Zpos p # 1)%Q in *
    end.

Lemma py_min_Q_cases (a b : Q) :
  ((b < a)%Q /\ py_min (F := Q) a b = b) \/ ((a <= b)%Q /\ py_min (F := Q) a b = a).
Proof.
  unfold py_min. change (fltb (F := Q)) with Qltb.
  destruct (Qltb_reflect b a) as [Hlt | Hge]; [ left | right ];
    (split; [ lra | reflexivity ]).
Qed.

Lemma py_max_Q_cases (a b : Q) :
  ((a < b)%Q /\ py_max (F := Q) a b = b) \/ ((b <= a)%Q /\ py_max (F := Q) a b = a).
Proof.
  unfold py_max. change (fltb (F := Q)) with Qltb.
  destruct (Qltb_reflect a b) as [Hlt | Hge]; [ left | right ];
    (split; [ lra | reflexivity ]).
Qed.

(** Splits on the innermost [min] or [max] in sight. *)
Ltac q_minmax :=
  repeat match goal with
    | |- context [@py_min _ _ ?a ?b] =>
        lazymatch a with
        | context [@py_min] => fail | context [@py_max] => fail
        | _ => idtac
        end;
        lazymatch b with
        | context [@py_min] => fail | context [@py_max] => fail
        | _ => idtac
        end;
        let Hc := fresh "Hc" in
        destruct (py_min_Q_cases a b) as [[Hc ->] | [Hc ->]]
    | |- context [@py_max _ _ ?a ?b] =>
        lazymatch a with
        | context [@py_min] => fail | context [@py_max] => fail
        | _ => idtac
        end;
        lazymatch b with
        | context [@py_min] => fail | context [@py_max] => fail
        | _ => idtac
        end;
        let Hc := fresh "Hc" in
        destruct (py_max_Q_cases a b) as [[Hc ->] | [Hc ->]]
    end.

Section ExactOrder.

Local Open Scope Q_scope.

Lemma Qmult_mono_nonneg (a1 a2 b1 b2 : Q) :
  0 <= a1 <= a2 -> 0 <= b1 <= b2 -> 0 <= a1 * b1 /\ a1 * b1 <= a2 * b2.
Proof.
  intros [Ha1 Ha] [Hb1 Hb]. split.
  - apply Qmult_le_0_compat; assumption.
  - apply Qle_trans with (a2 * b1).
    + apply Qmult_le_compat_r; assumption.
    + rewrite !(Qmult_comm a2). apply Qmult_le_compat_r; [ exact Hb | lra ].
Qed.

(** A share of a positive total, and how two shares move when one part
    grows and another shrinks. *)
Lemma share_unit (s b c : Q) :
  0 <= s -> 0 <= b -> 0 < c -> 0 <= s / (s + b + c) <= 1.
Proof.
  intros Hs Hb Hc. split.
  - apply Qle_shift_div_l; lra.
  - apply Qle_shift_div_r; lra.
Qed.


End ExactOrder.

(** *** The plans in exact arithmetic *)

Section PlansExact.

Local Open Scope Q_scope.

Variable pow_int : Q -> Z -> Q.

(** A higher monthly return never gives a lower balance. *)
Lemma accumulated_after_mono (r1 r2 monthly_save current_asset : Q) (n : nat) :
  0 <= r1 <= r2 -> 0 <= monthly_save -> 0 <= current_asset ->
  0 <= accumulated_after r1 monthly_save current_asset n
  /\ accumulated_after r1 monthly_save current_asset n
     <= accumulated_after r2 monthly_save current_asset n.
Proof.
  intros Hr Hs Ha. induction n as [|n [IH0 IH]]; cbn [accumulated_after].
  - lra.
  - q_unfold. change (inject_Z 1) with 1.
    set (b1 := accumulated_after r1 monthly_save current_asset n) in *.
    set (b2 := accumulated_after r2 monthly_save current_asset n) in *.
    clearbody b1 b2. split; nra.
Qed.

Lemma monthly_return_ordered (t1 t2 : RiskLevel) :
  (tier_rank t1 <= tier_rank t2)%Z ->
  0 <= (expected_return (risk_profiles (F := Q) t1) / of_int 12)%py
    <= (expected_return (risk_profiles (F := Q) t2) / of_int 12)%py.
Proof.
  destruct t1, t2; cbn [tier_rank]; intro Hle; try lia;
    split; vm_compute; discriminate.
Qed.

Lemma riskier_tier_shorter_horizon (fuel : nat)
    (current_asset monthly_income target_amount : Q) (t1 t2 : RiskLevel) :
  (tier_rank t1 <= tier_rank t2)%Z ->
  (600 < fuel)%nat -> 0 <= current_asset -> 0 <= monthly_income ->
  exists plan1 plan2,
    calculate_optimal_savings_rate pow_int fuel current_asset monthly_income
      target_amount t1 None = Some plan1
    /\ calculate_optimal_savings_rate pow_int fuel current_asset monthly_income
         target_amount t2 None = Some plan2
    /\ (0 <= target_months plan2 <= target_months plan1)%Z
    /\ (target_months plan1 <= 600)%Z.
Proof.
  intros Htier Hfuel Hca Hincome.
  destruct (target_amount - current_asset <=? of_int 0)%py eqn:Hgap.
  - rewrite !(goal_met_plan pow_int fuel current_asset monthly_income
                target_amount _ Hgap).
    eexists; eexists. split; [ reflexivity | split; [ reflexivity | ] ].
    cbn [target_months]. lia.
  - destruct (horizon_plan_least pow_int fuel current_asset monthly_income
                target_amount t1 Hfuel Hgap) as (p1 & Hp1 & Hr1 & Hb1 & Hs1).
    destruct (horizon_plan_least pow_int fuel current_asset monthly_income
                target_amount t2 Hfuel Hgap) as (p2 & Hp2 & Hr2 & Hb2 & Hs2).
    exists p1, p2. split; [ exact Hp1 | split; [ exact Hp2 | ] ].
    split; [ split; [ lia | ] | lia ].
    destruct (Z_le_gt_dec (target_months p2) (target_months p1)) as [Hle | Hgt];
      [ exact Hle | exfalso ].
    specialize (Hs1 ltac:(lia)). specialize (Hb2 (target_months p1) ltac:(lia)).
    assert (Hsave : 0 <= (monthly_income * lit 0.3)%py)
      by (cbv [fmul lit QFloat]; lra).
    pose proof (accumulated_after_mono _ _ (monthly_income * lit 0.3)%py
                  current_asset (Z.to_nat (target_months p1))
                  (monthly_return_ordered t1 t2 Htier) Hsave Hca) as [_ Hmono].
    change (fltb (F := Q)) with Qltb in Hs1, Hb2.
    apply Qltb_false in Hs1. apply Qltb_true in Hb2. lra.
Qed.

(** X7: in exact arithmetic, for a nonnegative current asset and a
    nonnegative income, with no horizon given, a tier with a higher
    expected return never needs a longer horizon: [target_months] of the
    riskier tier is at most [target_months] of the other, both within [0,
    600]. *)
Theorem riskier_tier_reaches_the_goal_sooner (fuel : nat)
    (current_asset monthly_income target_amount : Q) (t1 t2 : RiskLevel) :
  (tier_rank t1 <= tier_rank t2)%Z ->
  (600 < fuel)%nat -> 0 <= current_asset -> 0 <= monthly_income ->
  exists plan1 plan2,
    calculate_optimal_savings_rate pow_int fuel current_asset monthly_income
      target_amount t1 None = Some plan1
    /\ calculate_optimal_savings_rate pow_int fuel current_asset monthly_income
         target_amount t2 None = Some plan2
    /\ (0 <= target_months plan2 <= target_months plan1)%Z
    /\ (target_months plan1 <= 600)%Z.
Proof.
  exact (riskier_tier_shorter_horizon fuel current_asset monthly_income
           target_amount t1 t2).
Qed.


(** X8: in exact arithmetic, with no horizon given, a current asset below
    the target and a nonzero income, the plan always saves 30% of the
    income: [savings_rate] is 0.3, [monthly_save] is [monthly_income *
    0.3] rounded to two decimals, and the horizon is between 1 and 600
    months. (The clamp to [0.2, 0.6] never acts on this path.) *)
Theorem default_plan_saves_thirty_percent (fuel : nat)
    (current_asset monthly_income target_amount : Q) (risk_level : RiskLevel) :
  (600 < fuel)%nat ->
  current_asset < target_amount ->
  ~ monthly_income == 0 ->
  exists plan,
    calculate_optimal_savings_rate pow_int fuel current_asset monthly_income
      target_amount risk_level None = Some plan
    /\ savings_rate plan == 0.3
    /\ monthly_save plan == Qround_nd (monthly_income * 0.3) 2
    /\ (1 <= target_months plan <= 600)%Z.
Proof.
  intros Hfuel Hgap Hincome.
  unfold calculate_optimal_savings_rate, savings_horizon.
  change (fleb (F := Q)) with Qle_bool. change (fsub (F := Q)) with Qminus.
  change (of_int (F := Q) 0) with 0.
  destruct (Qle_bool_reflect (target_amount - current_asset) 0) as [Hc | _];
    [ lra | ].
  destruct fuel as [|fuel]; [ lia | ].
  cbn [horizon_search].
  change (fltb (F := Q)) with Qltb.
  destruct (Qltb_reflect current_asset target_amount) as [_ | Hc]; [ | lra ].
  cbn [andb Z.ltb Z.compare].
  destruct (@horizon_search_terminates Q _ target_amount
              (expected_return (risk_profiles risk_level) / of_int 12)%py
              (monthly_income * lit 0.3)%py fuel
              (current_asset
               * (of_int 1 + expected_return (risk_profiles risk_level) / of_int 12)
               + monthly_income * lit 0.3)%py (0 + 1)%Z)
    as (a & m & Heq & Hle); [ lia | simpl; lia | ].
  rewrite Heq.
  replace (if (m <? 600)%Z then m else 600%Z) with m
    by (destruct (Z.ltb_spec m 600); lia).
  destruct (Z.eqb_spec m 0) as [Hm0 | _]; [ lia | ]. cbn [orb].
  change (feqb (F := Q)) with Qeq_bool.
  destruct (Qeq_bool_reflect monthly_income 0) as [Hc | _]; [ contradiction | ].
  assert (Hratio : (monthly_income * lit 0.3 / monthly_income)%py == 0.3).
  { cbv [fdiv fmul lit QFloat]. field. exact Hincome. }
  revert Hratio. generalize (monthly_income * lit 0.3 / monthly_income)%py.
  intros ratio Hratio.
  assert (Hrate : py_min (F := Q) (lit 0.6) (py_max (lit 0.2) ratio) == 0.3)
    by (q_minmax; q_unfold; lra).
  revert Hrate. generalize (py_min (F := Q) (lit 0.6) (py_max (lit 0.2) ratio)).
  intros rate Hrate.
  eexists. split; [ reflexivity | ].
  cbn [savings_rate monthly_save target_months].
  change (round_nd (F := Q)) with Qround_nd.
  split; [ | split; [ | lia ] ].
  - rewrite (Qround_nd_2_hundredths _ 30); [ reflexivity | ].
    apply Qeq_trans with 0.3; [ exact Hrate | reflexivity ].
  - rewrite (Qround_nd_comp (monthly_income * rate)%py (monthly_income * 0.3) 2);
      [ reflexivity
      | change (fmul (F := Q)) with Qmult;
        apply Qmult_comp; [ reflexivity | exact Hrate ] ].
Qed.



End PlansExact.

Lemma riskier_tier_reaches_the_goal_sooner_witness :
  exists plan1 plan2,
    calculate_optimal_savings_rate (F := Q) (fun x n => Qpower x n) 601
      50000 15000 1000000 low None = Some plan1
    /\ calculate_optimal_savings_rate (F := Q) (fun x n => Qpower x n) 601
         50000 15000 1000000 high None = Some plan2
    /\ (0 <= target_months plan2 <= target_months plan1)%Z
    /\ (target_months plan1 <= 600)%Z.
Proof.
  apply (riskier_tier_reaches_the_goal_sooner (fun x n => Qpower x n) 601
           50000 15000 1000000 low high);
    [ discriminate | lia | discriminate | discriminate ].
Defined.

Lemma default_plan_saves_thirty_percent_witness :
  exists plan,
    calculate_optimal_savings_rate (F := Q) (fun x n => Qpower x n) 601
      50000 15000 1000000 medium None = Some plan
    /\ (savings_rate plan == 0.3)%Q
    /\ (monthly_save plan == Qround_nd (15000 * 0.3) 2)%Q
    /\ (1 <= target_months plan <= 600)%Z.
Proof.
  apply (default_plan_saves_thirty_percent (fun x n => Qpower x n) 601
           50000 15000 1000000 medium);
    [ lia | reflexivity | discriminate ].
Defined.


(** ** RiskToleranceEstimator: factors, score and tier *)

Section RiskExact.

Local Open Scope Q_scope.

Variable math_log : Q -> Q.
Variable pow : Q -> Q -> Q.
Variable ml_model : option (Q -> Q -> Q -> Q -> option Q).

Lemma clamp_unit (x : Q) : 0 <= py_max (F := Q) (lit 0.0) (py_min (lit 1.0) x) <= 1.
Proof.
  q_minmax; q_unfold; lra.
Qed.

Lemma asset_coverage_factor_bounds (current_asset : Q) (target_amount : Z) :
  0 <= asset_coverage_factor current_asset target_amount <= 2.
Proof.
  unfold asset_coverage_factor.
  generalize (current_asset / of_int target_amount)%py. intro r.
  destruct (target_amount >? 0)%Z; q_minmax; q_unfold; q_lits; lra.
Qed.

(** What the branches of the time pressure come to. *)
Lemma time_pressure_factor_closed (current_asset monthly_income : Q)
    (target_amount : Z) :
  let gap := (of_int target_amount - current_asset)%py in
  let m := months_to_target gap (monthly_income * lit 0.3)%py in
  let tp := time_pressure_factor current_asset monthly_income target_amount in
  (gap <= 0 -> tp == 0)
  /\ (0 < gap -> m <= 100 -> tp == 1)
  /\ (0 < gap -> 100 < m -> tp == 100 / m).
Proof.
  unfold time_pressure_factor.
  set (gap := (of_int target_amount - current_asset)%py).
  set (m := months_to_target gap (monthly_income * lit 0.3)%py).
  cbv zeta. clearbody m gap.
  change (fleb (F := Q)) with Qle_bool. change (fltb (F := Q)) with Qltb.
  change (of_int (F := Q) 0) with 0. change (of_int (F := Q) 12) with 12.
  change (of_int (F := Q) 60) with 60. change (of_int (F := Q) 100) with 100.
  change (lit (F := Q) 0.0) with 0.0. change (lit (F := Q) 1.0) with 1.0.
  destruct (Qle_bool_reflect gap 0) as [Hgap | Hgap].
  { split; [ intros _; reflexivity | split; intros Hc; lra ]. }
  split; [ intro Hc; lra | ].
  assert (Hmin60 : 0 < m -> m < 60 -> py_min (F := Q) 1.0 (60 / m)%py == 1).
  { intros Hm0 Hm60. unfold py_min.
    change (fltb (F := Q)) with Qltb. change (fdiv (F := Q)) with Qdiv.
    destruct (Qltb_reflect (60 / m) 1.0) as [Hlt | Hge]; [ | reflexivity ].
    exfalso. assert (H1 : 1 <= 60 / m) by (apply Qle_shift_div_l; lra). lra. }
  assert (Hmin100a : 0 < m -> m <= 100 -> py_min (F := Q) 1.0 (100 / m)%py == 1).
  { intros Hm0 Hm100. unfold py_min.
    change (fltb (F := Q)) with Qltb. change (fdiv (F := Q)) with Qdiv.
    destruct (Qltb_reflect (100 / m) 1.0) as [Hlt | Hge]; [ | reflexivity ].
    exfalso. assert (H1 : 1 <= 100 / m) by (apply Qle_shift_div_l; lra). lra. }
  assert (Hmin100b : 100 < m -> py_min (F := Q) 1.0 (100 / m)%py == 100 / m).
  { intros Hm100. unfold py_min.
    change (fltb (F := Q)) with Qltb. change (fdiv (F := Q)) with Qdiv.
    destruct (Qltb_reflect (100 / m) 1.0) as [Hlt | Hge]; [ reflexivity | ].
    exfalso. assert (H1 : 100 / m < 1) by (apply Qlt_shift_div_r; lra). lra. }
  destruct (Qle_bool_reflect m 0) as [Hm0 | Hm0].
  { split; [ intros _ _; reflexivity | intros _ Hc; lra ]. }
  destruct (Qltb_reflect m 12) as [Hm12 | Hm12].
  { split; [ intros _ _; reflexivity | intros _ Hc; lra ]. }
  destruct (Qltb_reflect m 60) as [Hm60 | Hm60].
  { split; [ intros _ _; apply Hmin60; lra | intros _ Hc; lra ]. }
  split; [ intros _ Hc; apply Hmin100a; lra | intros _ Hc; apply Hmin100b; lra ].
Qed.

Lemma time_pressure_factor_bounds (current_asset monthly_income : Q)
    (target_amount : Z) :
  0 <= time_pressure_factor current_asset monthly_income target_amount <= 1.
Proof.
  destruct (time_pressure_factor_closed current_asset monthly_income target_amount)
    as (Hz & Hone & Hfar).
  cbv zeta in Hz, Hone, Hfar.
  set (gap := (of_int target_amount - current_asset)%py) in *.
  set (m := months_to_target gap (monthly_income * lit 0.3)%py) in *.
  destruct (Qlt_le_dec 0 gap) as [Hgap | Hgap].
  - destruct (Qlt_le_dec 100 m) as [Hm | Hm].
    + rewrite (Hfar Hgap Hm). split.
      * apply Qle_shift_div_l; lra.
      * apply Qle_shift_div_r; lra.
    + rewrite (Hone Hgap Hm). lra.
  - rewrite (Hz Hgap). lra.
Qed.

(** X10: in exact arithmetic the time pressure is in [0, 1] and has two
    regimes only: with a positive gap it is 1.0 whenever [months_to_target
    <= 100] and [100 / months_to_target] beyond. The branch [min(1.0, 60 /
    months_to_target)] of the band from 12 to 60 months always yields 1.0,
    and an income that leaves no saving capacity gives [100 / 999]. *)
Theorem time_pressure_saturates (current_asset monthly_income : Q)
    (target_amount : Z) :
  let gap := (of_int target_amount - current_asset)%py in
  let m := months_to_target gap (monthly_income * lit 0.3)%py in
  let tp := time_pressure_factor current_asset monthly_income target_amount in
  0 <= tp <= 1
  /\ (gap <= 0 -> tp == 0)
  /\ (0 < gap -> m <= 100 -> tp == 1)
  /\ (0 < gap -> 100 < m -> tp == 100 / m)
  /\ (0 < gap -> monthly_income <= 0 -> tp == 100 / 999).
Proof.
  cbv zeta.
  split; [ apply time_pressure_factor_bounds | ].
  destruct (time_pressure_factor_closed current_asset monthly_income target_amount)
    as (Hz & Hone & Hfar).
  cbv zeta in Hz, Hone, Hfar.
  split; [ exact Hz | split; [ exact Hone | split; [ exact Hfar | ] ] ].
  intros Hgap Hincome.
  assert (Hm : months_to_target (of_int target_amount - current_asset)%py
                 (monthly_income * lit 0.3)%py = of_int 999).
  { unfold months_to_target. change (fltb (F := Q)) with Qltb.
    destruct (Qltb_reflect (of_int 0) (monthly_income * lit 0.3)%py) as [Hc | _];
      [ | reflexivity ].
    exfalso. revert Hc. cbv [of_int lit fmul QFloat].
    change (inject_Z 0) with 0. lra. }
  rewrite Hfar; [ rewrite Hm; reflexivity | exact Hgap | rewrite Hm; reflexivity ].
Qed.

(** The score before rounding, and the tier chosen from it. *)
Lemma risk_tolerance_score (current_asset monthly_income : Q) (goal : string)
    (age : Z) :
  exists s : Q,
    0 <= s <= 1
    /\ risk_score (calculate_risk_tolerance math_log pow ml_model current_asset
                     monthly_income goal age) = Qround_nd s 2
    /\ risk_level (calculate_risk_tolerance math_log pow ml_model current_asset
                     monthly_income goal age)
       = (if Qle_bool 0.7 s then high else if Qle_bool 0.4 s then medium else low).
Proof.
  unfold calculate_risk_tolerance.
  destruct ml_model as [predict|].
  - destruct (predict _ _ _ _) as [p|].
    + eexists. split; [ apply clamp_unit | split; reflexivity ].
    + eexists. split; [ apply clamp_unit | split; reflexivity ].
  - eexists. split; [ apply clamp_unit | split; reflexivity ].
Qed.

Lemma risk_factor_bounds (current_asset monthly_income : Q) (goal : string)
    (age : Z) :
  let assessment :=
    calculate_risk_tolerance math_log pow ml_model current_asset monthly_income
      goal age in
  0 <= risk_score assessment <= 1
  /\ 0 <= asset_coverage (factors assessment) <= 1
  /\ 0 <= time_pressure (factors assessment) <= 1
  /\ 0.5 <= age_factor (factors assessment)
  /\ income_stability (factors assessment) <= 1.
Proof.
  cbv zeta.
  destruct (risk_tolerance_score current_asset monthly_income goal age)
    as (s & Hs & Hscore & _).
  rewrite Hscore.
  split; [ apply Qround_nd_2_unit; exact Hs | ].
  unfold calculate_risk_tolerance.
  destruct ml_model as [predict|]; [ destruct (predict _ _ _ _) | ];
    cbn [factors asset_coverage time_pressure age_factor income_stability].
  all: change (round_nd (F := Q)) with Qround_nd.
  all: (split; [ apply Qround_nd_2_unit;
                 pose proof (asset_coverage_factor_bounds current_asset
                               (calculate_target_amount goal)) as Hac;
                 revert Hac;
                 generalize (asset_coverage_factor current_asset
                               (calculate_target_amount goal));
                 intros a Hac; q_minmax; q_unfold; lra | ]).
  all: (split; [ apply Qround_nd_2_unit; apply time_pressure_factor_bounds | ]).
  all: split.
  all: try (apply Qle_trans with (Qround_nd 0.5 2);
            [ vm_compute; discriminate | apply Qround_nd_2_mono ];
            generalize (of_int (F := Q) 1 - of_int (age - 25) / of_int 50)%py;
            intro x; q_minmax; q_unfold; lra).
  all: apply Qle_trans with (Qround_nd 1 2);
    [ apply Qround_nd_2_mono | vm_compute; discriminate ];
    generalize (math_log (of_int 1 + monthly_income / of_int 5000)%py
                / math_log (of_int 5))%py;
    intro x; q_minmax; q_unfold; lra.
Qed.

Lemma risk_level_score_cases (current_asset monthly_income : Q) (goal : string)
    (age : Z) :
  let assessment :=
    calculate_risk_tolerance math_log pow ml_model current_asset monthly_income
      goal age in
  match risk_level assessment with
  | high => 0.7 <= risk_score assessment <= 1
  | medium => 0.4 <= risk_score assessment <= 0.7
  | low => 0 <= risk_score assessment <= 0.4
  end.
Proof.
  cbv zeta.
  destruct (risk_tolerance_score current_asset monthly_income goal age)
    as (s & Hs & Hscore & Hlevel).
  rewrite Hscore, Hlevel. clear Hscore Hlevel.
  pose proof (Qround_nd_2_unit s Hs) as Hunit.
  assert (H07 : Qround_nd 0.7 2 == 0.7) by reflexivity.
  assert (H04 : Qround_nd 0.4 2 == 0.4) by reflexivity.
  destruct (Qle_bool_reflect 0.7 s) as [Hhi | Hhi].
  { split; [ | apply Hunit ].
    rewrite <- H07. apply Qround_nd_2_mono. exact Hhi. }
  destruct (Qle_bool_reflect 0.4 s) as [Hmid | Hmid].
  { split.
    - rewrite <- H04. apply Qround_nd_2_mono. exact Hmid.
    - rewrite <- H07. apply Qround_nd_2_mono. lra. }
  split; [ apply Hunit | ].
  rewrite <- H04. apply Qround_nd_2_mono. lra.
Qed.

Lemma age_factor_cases (current_asset monthly_income : Q) (goal : string)
    (age : Z) :
  let assessment :=
    calculate_risk_tolerance math_log pow ml_model current_asset monthly_income
      goal age in
  ((age <= 50)%Z -> age_factor (factors assessment) == inject_Z (75 - age) / 50)
  /\ ((50 <= age)%Z -> age_factor (factors assessment) == 0.5)
  /\ ((age <= 34)%Z -> 0.8 < age_factor (factors assessment))
  /\ ((age < 25)%Z -> 1 < age_factor (factors assessment)).
Proof.
  cbv zeta.
  assert (Hform : age_factor
                    (factors (calculate_risk_tolerance math_log pow ml_model
                                current_asset monthly_income goal age))
                  = Qround_nd (py_max (lit 0.5)
                                 (of_int 1 - of_int (age - 25) / of_int 50)%py) 2).
  { unfold calculate_risk_tolerance.
    destruct ml_model as [predict|]; [ destruct (predict _ _ _ _) | ]; reflexivity. }
  rewrite Hform. clear Hform.
  assert (Hx : (of_int (F := Q) 1 - of_int (age - 25) / of_int 50)%py
               == inject_Z (2 * (75 - age)) / 100).
  { q_unfold. unfold Z.sub. rewrite !inject_Z_mult, !inject_Z_plus, !inject_Z_opp.
    change (inject_Z 1) with 1. change (inject_Z 2) with 2.
    change (inject_Z 25) with 25. change (inject_Z 75) with 75.
    change (inject_Z 50) with 50. field. }
  assert (Hyoung : (age <= 50)%Z ->
            Qround_nd (py_max (lit 0.5)
                         (of_int 1 - of_int (age - 25) / of_int 50)%py) 2
            == inject_Z (75 - age) / 50).
  { intro Hage.
    rewrite (Qround_nd_2_hundredths _ (2 * (75 - age))).
    - rewrite inject_Z_mult. change (inject_Z 2) with 2. field.
    - revert Hx.
      generalize (of_int (F := Q) 1 - of_int (age - 25) / of_int 50)%py.
      intros x Hx. unfold py_max. change (fltb (F := Q)) with Qltb.
      change (lit (F := Q) 0.5) with 0.5.
      destruct (Qltb_reflect 0.5 x) as [Hlt | Hge]; [ exact Hx | ].
      rewrite <- Hx.
      assert (Hb : (50 <= 2 * (75 - age))%Z) by lia.
      rewrite Zle_Qle in Hb. change (inject_Z 50) with 50 in Hb.
      assert (Hb' : 0.5 <= inject_Z (2 * (75 - age)) / 100)
        by (apply Qle_shift_div_l; [ reflexivity | lra ]).
      rewrite <- Hx in Hb'. lra. }
  assert (Hq : forall k : Z, (k <= age)%Z -> inject_Z (75 - age) / 50 <= inject_Z (75 - k) / 50).
  { intros k Hk. unfold Qdiv. apply Qmult_le_compat_r; [ | discriminate ].
    rewrite <- Zle_Qle. lia. }
  split; [ exact Hyoung | split; [ | split ] ].
  - intro Hage.
    rewrite (Qround_nd_2_hundredths _ 50); [ reflexivity | ].
    revert Hx.
    generalize (of_int (F := Q) 1 - of_int (age - 25) / of_int 50)%py.
    intros x Hx. unfold py_max. change (fltb (F := Q)) with Qltb.
    change (lit (F := Q) 0.5) with 0.5.
    destruct (Qltb_reflect 0.5 x) as [Hlt | Hge]; [ exfalso | reflexivity ].
    assert (Hb : (2 * (75 - age) <= 50)%Z) by lia.
    rewrite Zle_Qle in Hb. change (inject_Z 50) with 50 in Hb.
    assert (Hb' : inject_Z (2 * (75 - age)) / 100 <= 0.5)
      by (apply Qle_shift_div_r; [ reflexivity | lra ]).
    rewrite <- Hx in Hb'. lra.
  - intro Hage. rewrite Hyoung by lia.
    apply Qlt_shift_div_l; [ reflexivity | ].
    assert (Hb : (41 <= 75 - age)%Z) by lia.
    rewrite Zle_Qle in Hb. change (inject_Z 41) with 41 in Hb. lra.
  - intro Hage. rewrite Hyoung by lia.
    apply Qlt_shift_div_l; [ reflexivity | ].
    assert (Hb : (51 <= 75 - age)%Z) by lia.
    rewrite Zle_Qle in Hb. change (inject_Z 51) with 51 in Hb. lra.
Qed.

(** X11: in exact arithmetic, for every input and every scorer (learned or
    traditional), the assessment returned by [calculate_risk_tolerance]
    has [risk_score] in [0, 1], [asset_coverage] and [time_pressure] in
    [0, 1], [age_factor >= 0.5] and [income_stability <= 1]. *)
Theorem risk_assessment_ranges (current_asset monthly_income : Q) (goal : string)
    (age : Z) :
  let assessment :=
    calculate_risk_tolerance math_log pow ml_model current_asset monthly_income
      goal age in
  0 <= risk_score assessment <= 1
  /\ 0 <= asset_coverage (factors assessment) <= 1
  /\ 0 <= time_pressure (factors assessment) <= 1
  /\ 0.5 <= age_factor (factors assessment)
  /\ income_stability (factors assessment) <= 1.
Proof. exact (risk_factor_bounds current_asset monthly_income goal age). Qed.

(** X12: in exact arithmetic, the tier and the returned (rounded) score
    agree up to the rounding: a high tier has [risk_score >= 0.7], a
    medium tier has [0.4 <= risk_score <= 0.7] and a low tier has
    [risk_score <= 0.4]. *)
Theorem risk_level_matches_score (current_asset monthly_income : Q) (goal : string)
    (age : Z) :
  let assessment :=
    calculate_risk_tolerance math_log pow ml_model current_asset monthly_income
      goal age in
  match risk_level assessment with
  | high => 0.7 <= risk_score assessment <= 1
  | medium => 0.4 <= risk_score assessment <= 0.7
  | low => 0 <= risk_score assessment <= 0.4
  end.
Proof. exact (risk_level_score_cases current_asset monthly_income goal age). Qed.

(** X13: in exact arithmetic the returned age factor is [(75 - age) / 50]
    up to the age of 50 and 0.5 from 50 on (the floor is reached at 50,
    not at 75 as the source comment says); it is above 0.8 up to the age
    of 34 and above 1 below the age of 25. *)
Theorem age_factor_closed_form (current_asset monthly_income : Q) (goal : string)
    (age : Z) :
  let assessment :=
    calculate_risk_tolerance math_log pow ml_model current_asset monthly_income
      goal age in
  ((age <= 50)%Z -> age_factor (factors assessment) == inject_Z (75 - age) / 50)
  /\ ((50 <= age)%Z -> age_factor (factors assessment) == 0.5)
  /\ ((age <= 34)%Z -> 0.8 < age_factor (factors assessment))
  /\ ((age < 25)%Z -> 1 < age_factor (factors assessment)).
Proof. exact (age_factor_cases current_asset monthly_income goal age). Qed.

End RiskExact.

Section RiskSpecialCases.

Local Open Scope Q_scope.

Variable math_log : Q -> Q.
Variable pow : Q -> Q -> Q.

(** X14: in exact arithmetic, with the traditional scorer, a user whose
    current asset already covers the target is never given the high tier:
    the score is at most 0.4, the time pressure is 0 and the asset
    coverage shown is 1. *)
Theorem goal_met_never_aggressive (current_asset monthly_income : Q) (goal : string)
    (age : Z) :
  of_int (calculate_target_amount goal) <= current_asset ->
  let assessment :=
    calculate_risk_tolerance math_log pow None current_asset monthly_income
      goal age in
  risk_level assessment <> high
  /\ risk_score assessment <= 0.4
  /\ time_pressure (factors assessment) == 0
  /\ asset_coverage (factors assessment) == 1.
Proof.
  intro Hmet. cbv zeta.
  unfold calculate_risk_tolerance.
  cbn [risk_level risk_score factors time_pressure asset_coverage].
  unfold _calculate_risk_score_traditional, time_pressure_factor.
  change (fleb (F := Q)) with Qle_bool. change (fsub (F := Q)) with Qminus.
  change (of_int (F := Q) 0) with 0.
  destruct (Qle_bool_reflect
              (of_int (calculate_target_amount goal) - current_asset) 0)
    as [Hgap | Hgap]; [ | lra ].
  match goal with
  | |- context [py_min (lit 0.4) ?x] => generalize x
  end.
  intro x.
  assert (Hs : 0 <= py_max (F := Q) (lit 0.0) (py_min (lit 1.0) (py_min (lit 0.4) x))
               <= 0.4).
  { q_minmax; q_unfold; lra. }
  revert Hs.
  generalize (py_max (F := Q) (lit 0.0) (py_min (lit 1.0) (py_min (lit 0.4) x))).
  intros s Hs.
  change (round_nd (F := Q)) with Qround_nd.
  change (lit (F := Q) 0.7) with 0.7. change (lit (F := Q) 0.4) with 0.4.
  split; [ | split; [ | split ] ].
  - destruct (Qle_bool_reflect 0.7 s) as [Hc | _]; [ lra | ].
    destruct (Qle_bool 0.4 s); discriminate.
  - apply Qle_trans with (Qround_nd 0.4 2);
      [ apply Qround_nd_2_mono; lra | vm_compute; discriminate ].
  - reflexivity.
  - assert (Hone : py_min (F := Q) (lit 1.0)
                     (asset_coverage_factor current_asset
                        (calculate_target_amount goal)) == 1).
    { unfold asset_coverage_factor.
      assert (Hpos : (0 < calculate_target_amount goal)%Z).
      { rewrite calculate_target_amount_cases.
        destruct (is_house goal), (is_car goal), (is_education goal),
          (is_freedom goal); reflexivity. }
      destruct (Z.gtb_spec (calculate_target_amount goal) 0) as [_ | Hc]; [ | lia ].
      assert (Hr : 1 <= current_asset / of_int (calculate_target_amount goal)).
      { apply Qle_shift_div_l.
        - unfold of_int, lit, QFloat. rewrite Zlt_Qlt in Hpos. exact Hpos.
        - unfold of_int, lit, QFloat in *. lra. }
      revert Hr.
      change (fdiv (F := Q)) with Qdiv.
      generalize (current_asset / of_int (calculate_target_amount goal)).
      intros r Hr. q_minmax; q_unfold; change (inject_Z 0) with 0 in *; lra. }
    rewrite (Qround_nd_2_hundredths _ 100); [ reflexivity | ].
    rewrite Hone. reflexivity.
Qed.

(** X15: in exact arithmetic, with the traditional scorer and a power
    function with [0 ** 0.25 = 0], a user with no assets always gets a
    score of 0 and the low tier, whatever the income, the age and the time
    pressure are (the boost for a high time pressure with a low asset base
    multiplies a score of 0). *)
Theorem no_assets_conservative (current_asset monthly_income : Q) (goal : string)
    (age : Z) :
  (forall x : Q, x == 0 -> pow x (lit 0.25) == 0) ->
  current_asset == 0 ->
  let assessment :=
    calculate_risk_tolerance math_log pow None current_asset monthly_income
      goal age in
  risk_level assessment = low /\ risk_score assessment == 0.
Proof.
  intros Hpow Hzero. cbv zeta.
  assert (Hpos : (0 < calculate_target_amount goal)%Z).
  { rewrite calculate_target_amount_cases.
    destruct (is_house goal), (is_car goal), (is_education goal),
      (is_freedom goal); reflexivity. }
  assert (Hpos' : 0 < inject_Z (calculate_target_amount goal))
    by (rewrite Zlt_Qlt in Hpos; exact Hpos).
  unfold calculate_risk_tolerance.
  cbn [risk_level risk_score].
  unfold _calculate_risk_score_traditional.
  change (fleb (F := Q)) with Qle_bool. change (fsub (F := Q)) with Qminus.
  change (of_int (F := Q) 0) with 0.
  destruct (Qle_bool_reflect
              (of_int (calculate_target_amount goal) - current_asset) 0)
    as [Hgap | Hgap]; [ unfold of_int, lit, QFloat in Hgap; lra | ].
  assert (Hac : asset_coverage_factor current_asset (calculate_target_amount goal)
                == 0).
  { unfold asset_coverage_factor.
    destruct (Z.gtb_spec (calculate_target_amount goal) 0) as [_ | Hc]; [ | lia ].
    assert (Hr : current_asset / of_int (calculate_target_amount goal) == 0).
    { rewrite Hzero. unfold Qdiv. apply Qmult_0_l. }
    revert Hr. change (fdiv (F := Q)) with Qdiv.
    generalize (current_asset / of_int (calculate_target_amount goal)).
    intros r Hr. q_minmax; q_unfold; change (inject_Z 0) with 0 in *; lra. }
  revert Hac.
  generalize (asset_coverage_factor current_asset (calculate_target_amount goal)).
  intros ac Hac.
  assert (Hp : pow (py_min (lit 1.0) ac) (lit 0.25) == 0).
  { apply Hpow. q_minmax; q_unfold; lra. }
  revert Hp. generalize (pow (py_min (lit 1.0) ac) (lit 0.25)). intros p Hp.
  match goal with
  | |- context [(p * ?a * ?b * ?c)%py] =>
      assert (Hprod : (p * a * b * c)%py == 0)
        by (change (fmul (F := Q)) with Qmult; rewrite Hp; ring);
      revert Hprod; generalize (p * a * b * c)%py
  end.
  intros s Hs.
  match goal with
  | |- context [py_max (lit 0.0) (py_min (lit 1.0) ?e)] =>
      assert (He : py_max (F := Q) (lit 0.0) (py_min (lit 1.0) e) == 0)
  end.
  { destruct (_ && _); q_minmax; q_unfold; lra. }
  revert He.
  match goal with
  | |- context [py_max (lit 0.0) (py_min (lit 1.0) ?e)] =>
      generalize (py_max (F := Q) (lit 0.0) (py_min (lit 1.0) e))
  end.
  intros e He.
  change (lit (F := Q) 0.7) with 0.7. change (lit (F := Q) 0.4) with 0.4.
  split.
  - destruct (Qle_bool_reflect 0.7 e) as [Hc | _]; [ lra | ].
    destruct (Qle_bool_reflect 0.4 e) as [Hc | _]; [ lra | reflexivity ].
  - rewrite (Qround_nd_2_hundredths _ 0); [ reflexivity | ]. rewrite He. reflexivity.
Qed.

End RiskSpecialCases.

Lemma goal_met_never_aggressive_witness :
  let assessment :=
    calculate_risk_tolerance (F := Q) (fun x => x) (fun x y => x) None
      1200000 15000 "买房" 30 in
  risk_level assessment <> high
  /\ (risk_score assessment <= 0.4)%Q
  /\ (time_pressure (factors assessment) == 0)%Q
  /\ (asset_coverage (factors assessment) == 1)%Q.
Proof.
  apply (goal_met_never_aggressive (fun x => x) (fun x y => x)
           1200000 15000 "买房" 30).
  vm_compute. discriminate.
Defined.

Lemma no_assets_conservative_witness :
  let assessment :=
    calculate_risk_tolerance (F := Q) (fun x => x) (fun x y => x) None
      0 15000 "买房" 30 in
  risk_level assessment = low /\ (risk_score assessment == 0)%Q.
Proof.
  apply (no_assets_conservative (fun x => x) (fun x y => x) 0 15000 "买房" 30).
  - intros x Hx. exact Hx.
  - reflexivity.
Defined.

(** *** The same in binary64 *)

Lemma Prim2SF_lit_04 :
  Prim2SF (lit 0.4) = S754_finite false 7205759403792794 (-54).
Proof. vm_compute. reflexivity. Qed.

Lemma Prim2SF_lit_07 :
  Prim2SF (lit 0.7) = S754_finite false 6305039478318694 (-53).
Proof. vm_compute. reflexivity. Qed.

Lemma Prim2SF_lit_10 :
  Prim2SF (lit 1.0) = S754_finite false 4503599627370496 (-52).
Proof. vm_compute. reflexivity. Qed.

Lemma b64_below_04 (x : float) :
  (x <? lit 0.4)%py = true ->
  (x <? lit 1.0)%py = true /\ (lit 0.7 <=? x)%py = false.
Proof.
  cbn [fltb fleb B64Float].
  rewrite !ltb_spec, leb_spec, Prim2SF_lit_04, Prim2SF_lit_07, Prim2SF_lit_10.
  unfold SFltb, SFleb.
  destruct (Prim2SF x) as [sx|sx| |sx mx ex]; try destruct sx; cbn [SFcompare];
    try (split; congruence).
  destruct (Z.compare_spec ex (-54)), (Z.compare_spec ex (-52)),
    (Z.compare_spec (-53) ex); try lia; split; congruence.
Qed.

(** The score of the branch [gap <= 0], capped at 0.4 and clamped to
    [0, 1], is below 0.7 for every binary64 product, a NaN included. *)
Lemma capped_score_below_07 (x : float) :
  (lit 0.7 <=? py_max (lit 0.0) (py_min (lit 1.0) (py_min (lit 0.4) x)))%py = false.
Proof.
  unfold py_min, py_max.
  destruct (x <? lit 0.4)%py eqn:Hx.
  - destruct (b64_below_04 x Hx) as [H1 H07]. rewrite H1.
    destruct (lit 0.0 <? x)%py; [ exact H07 | vm_compute; reflexivity ].
  - vm_compute. reflexivity.
Qed.

(** X16: in binary64, with the traditional scorer, a user whose current
    asset already covers the target is never given the high tier, whatever
    the logarithm and the power functions return (infinities and NaN
    included), and the time pressure returned is 0.0. *)
Theorem goal_met_never_aggressive_b64
    (math_log : float -> float) (pow : float -> float -> float)
    (current_asset monthly_income : float) (goal : string) (age : Z) :
  (of_int (calculate_target_amount goal) - current_asset <=? of_int 0)%py = true ->
  let assessment :=
    calculate_risk_tolerance math_log pow None current_asset monthly_income
      goal age in
  risk_level assessment <> high
  /\ time_pressure (factors assessment) = lit 0.0.
Proof.
  intro Hgap. cbv zeta. unfold calculate_risk_tolerance.
  cbn [risk_level factors time_pressure].
  unfold _calculate_risk_score_traditional, time_pressure_factor.
  rewrite Hgap.
  split; [ | vm_compute; reflexivity ].
  rewrite capped_score_below_07.
  match goal with
  | |- (if ?c then _ else _) <> _ => destruct c; discriminate
  end.
Qed.

Lemma goal_met_never_aggressive_b64_witness :
  let assessment :=
    calculate_risk_tolerance (F := float) (fun x => x) (fun x y => x) None
      (lit 1200000) (lit 15000) "买房" 30 in
  risk_level assessment <> high
  /\ time_pressure (factors assessment) = lit 0.0.
Proof.
  apply (goal_met_never_aggressive_b64 (fun x => x) (fun x y => x)
           (lit 1200000) (lit 15000) "买房" 30).
  vm_compute. reflexivity.
Defined.

(** ** PerformanceMetricsCalculator *)

(** X17: in binary64, for every tier and every confidence level, the value
    at risk is positive and strictly below the conditional value at risk,
    and the Sharpe ratio is positive and strictly below the Sortino ratio. *)
Theorem risk_metrics_ordered (t : RiskLevel) (confidence_level : float) :
  (of_int 0 <? calculate_var t confidence_level)%py = true
  /\ (calculate_var t confidence_level <? calculate_cvar t confidence_level)%py = true
  /\ (of_int 0 <? calculate_sharpe_ratio (F := float) t)%py = true
  /\ (calculate_sharpe_ratio (F := float) t <? calculate_sortino_ratio t)%py = true.
Proof.
  unfold calculate_cvar, calculate_var.
  destruct (z_score_b64_cases confidence_level) as [-> | [-> | ->]];
    destruct t; vm_compute; repeat split; reflexivity.
Qed.

(** ** AssetAllocationOptimizer: the shape of the weights *)

Section AllocationShape.

Local Open Scope Q_scope.

(** [time_factor] grows with the horizon. *)
Lemma time_factor_mono (h1 h2 : Z) :
  (0 <= h1 <= h2)%Z ->
  0 <= py_min (F := Q) (lit 1.0) (of_int h1 / of_int 120)%py
  /\ py_min (F := Q) (lit 1.0) (of_int h1 / of_int 120)%py
     <= py_min (F := Q) (lit 1.0) (of_int h2 / of_int 120)%py
  /\ py_min (F := Q) (lit 1.0) (of_int h2 / of_int 120)%py <= 1.
Proof.
  intros [Hh1 Hh].
  assert (H1 : 0 <= (of_int (F := Q) h1 / of_int 120)%py).
  { q_unfold. apply Qdiv_nonneg; [ | reflexivity ].
    change 0 with (inject_Z 0). rewrite <- Zle_Qle. exact Hh1. }
  assert (H12 : (of_int (F := Q) h1 / of_int 120)%py
                <= (of_int (F := Q) h2 / of_int 120)%py).
  { q_unfold. unfold Qdiv. apply Qmult_le_compat_r; [ | discriminate ].
    rewrite <- Zle_Qle. exact Hh. }
  revert H1 H12.
  generalize (of_int (F := Q) h1 / of_int 120)%py
             (of_int (F := Q) h2 / of_int 120)%py.
  intros x1 x2 H1 H12. q_minmax; q_unfold; lra.
Qed.

(** [asset_ratio] grows with the current asset. *)
Lemma asset_ratio_mono (current_asset1 current_asset2 target_amount : Q) :
  0 <= current_asset2 <= current_asset1 ->
  let asset_ratio (current_asset : Q) :=
    if (target_amount >? of_int 0)%py
    then py_min (F := Q) (lit 1.0) (current_asset / target_amount)%py
    else of_int 0 in
  0 <= asset_ratio current_asset2
  /\ asset_ratio current_asset2 <= asset_ratio current_asset1
  /\ asset_ratio current_asset1 <= 1.
Proof.
  intros [Hca2 Hca]. cbv zeta.
  change (fltb (F := Q)) with Qltb. change (of_int (F := Q) 0) with 0.
  destruct (Qltb_reflect 0 target_amount) as [Hpos | Hneg]; [ | lra ].
  assert (H2 : 0 <= (current_asset2 / target_amount)%py)
    by (apply Qdiv_nonneg; assumption).
  assert (H12 : (current_asset2 / target_amount)%py
                <= (current_asset1 / target_amount)%py).
  { cbv [fdiv QFloat]. unfold Qdiv. apply Qmult_le_compat_r; [ exact Hca | ].
    apply Qlt_le_weak, Qinv_lt_0_compat. exact Hpos. }
  revert H2 H12.
  generalize (current_asset2 / target_amount)%py (current_asset1 / target_amount)%py.
  intros x2 x1 H2 H12. q_minmax; q_unfold; lra.
Qed.

(** How the adjusted weights move. *)
Lemma adjusted_allocation_mono (t : RiskLevel)
    (current_asset1 current_asset2 target_amount : Q) (h1 h2 : Z) :
  (0 <= h1 <= h2)%Z -> 0 <= current_asset2 <= current_asset1 ->
  let adj1 := adjusted_allocation t current_asset1 target_amount h1 in
  let adj2 := adjusted_allocation t current_asset2 target_amount h2 in
  (0 <= stocks adj1 /\ stocks adj1 <= stocks adj2)
  /\ (0 <= bonds adj2 /\ bonds adj2 <= bonds adj1)
  /\ cash adj1 = cash adj2 /\ 0 < cash adj1.
Proof.
  intros Hh Hca. cbv zeta. unfold adjusted_allocation.
  pose proof (time_factor_mono h1 h2 Hh) as Htf.
  pose proof (asset_ratio_mono current_asset1 current_asset2 target_amount Hca)
    as Har.
  cbv beta zeta in Har. cbn [stocks bonds cash].
  set (tf1 := py_min (lit 1.0) (of_int h1 / of_int 120)%py) in *.
  set (tf2 := py_min (lit 1.0) (of_int h2 / of_int 120)%py) in *.
  set (ar1 := if (target_amount >? of_int 0)%py
              then py_min (lit 1.0) (current_asset1 / target_amount)%py
              else of_int 0) in *.
  set (ar2 := if (target_amount >? of_int 0)%py
              then py_min (lit 1.0) (current_asset2 / target_amount)%py
              else of_int 0) in *.
  clearbody tf1 tf2 ar1 ar2.
  destruct t; cbn [risk_profiles asset_allocation stocks bonds cash];
    q_unfold; q_lits;
    (split; [ apply Qmult_mono_nonneg; lra
            | split; [ apply Qmult_mono_nonneg; lra
                     | split; reflexivity ] ]).
Qed.


(** X19: in exact arithmetic the horizon acts on the allocation up to 120
    months only: every horizon of 120 months or more gives the allocation
    of 120 months. *)
Theorem allocation_saturates (t : RiskLevel) (current_asset target_amount : Q)
    (time_horizon : Z) :
  (120 <= time_horizon)%Z ->
  optimize_asset_allocation t current_asset target_amount time_horizon
  = optimize_asset_allocation t current_asset target_amount 120.
Proof.
  intro Hh.
  assert (Htf : py_min (F := Q) (lit 1.0) (of_int time_horizon / of_int 120)%py
                = py_min (F := Q) (lit 1.0) (of_int 120 / of_int 120)%py).
  { assert (Hx : 1 <= (of_int (F := Q) time_horizon / of_int 120)%py).
    { q_unfold. apply Qle_shift_div_l; [ reflexivity | ].
      rewrite Zle_Qle in Hh. change (inject_Z 120) with 120 in *. lra. }
    revert Hx. generalize (of_int (F := Q) time_horizon / of_int 120)%py.
    intros x Hx. unfold py_min. change (fltb (F := Q)) with Qltb.
    destruct (Qltb_reflect x (lit 1.0)) as [Hc | _];
      [ change (lit (F := Q) 1.0) with 1.0 in Hc; lra | reflexivity ]. }
  unfold optimize_asset_allocation, adjusted_allocation.
  rewrite Htf. reflexivity.
Qed.

(** X20: in exact arithmetic, for a horizon [>= 0] and a current asset [>=
    0], the stock weight and the bond weight are in [0, 1] and the cash
    weight is between 0.087 and 0.11. *)
Theorem allocation_weight_ranges (t : RiskLevel) (current_asset target_amount : Q)
    (time_horizon : Z) :
  (0 <= time_horizon)%Z -> 0 <= current_asset ->
  let a := optimize_asset_allocation t current_asset target_amount time_horizon in
  0 <= stocks a <= 1 /\ 0 <= bonds a <= 1 /\ 0.087 <= cash a <= 0.11.
Proof.
  intros Hh Hca. cbv zeta.
  destruct (adjusted_allocation_mono t current_asset current_asset target_amount
              time_horizon time_horizon ltac:(lia) ltac:(lra))
    as ((Hs & _) & (Hb & _) & _ & Hc).
  cbv zeta in *.
  assert (Htotal : 0.81
                   <= stocks (adjusted_allocation t current_asset target_amount
                                time_horizon)
                      + bonds (adjusted_allocation t current_asset target_amount
                                 time_horizon) <= 1.05).
  { clear Hs Hb Hc. unfold adjusted_allocation.
    pose proof (time_factor_bounds time_horizon Hh) as Htf.
    pose proof (asset_ratio_bounds current_asset target_amount Hca) as Har.
    cbn [stocks bonds cash].
    set (tf := py_min (lit 1.0) (of_int time_horizon / of_int 120)%py) in *.
    set (ar := if (target_amount >? of_int 0)%py then _ else _) in *.
    clearbody tf ar.
    destruct t; cbn [risk_profiles asset_allocation stocks bonds cash];
      q_unfold; q_lits; split; nra. }
  assert (Hcash : cash (adjusted_allocation t current_asset target_amount
                          time_horizon) == 0.1) by (destruct t; reflexivity).
  unfold optimize_asset_allocation, allocation_total. cbn [stocks bonds cash].
  revert Hs Hb Hc Htotal Hcash.
  generalize (stocks (adjusted_allocation t current_asset target_amount time_horizon))
             (bonds (adjusted_allocation t current_asset target_amount time_horizon))
             (cash (adjusted_allocation t current_asset target_amount time_horizon)).
  intros s b c Hs Hb Hc Htotal Hcash.
  change (round_nd (F := Q)) with Qround_nd. cbv [fadd fdiv QFloat].
  split; [ | split ].
  - apply Qround_nd_3_unit, share_unit; assumption.
  - apply Qround_nd_3_unit.
    setoid_replace (s + b + c) with (b + s + c) by ring.
    apply share_unit; assumption.
  - split.
    + apply Qle_trans with (Qround_nd 0.0869 3); [ vm_compute; discriminate | ].
      apply Qround_nd_3_mono. apply Qle_shift_div_l; lra.
    + apply Qle_trans with (Qround_nd 0.11 3); [ | vm_compute; discriminate ].
      apply Qround_nd_3_mono. apply Qle_shift_div_r; lra.
Qed.

End AllocationShape.


Lemma allocation_saturates_witness :
  optimize_asset_allocation (F := Q) high 50000 1000000 600
  = optimize_asset_allocation (F := Q) high 50000 1000000 120.
Proof.
  apply (allocation_saturates high 50000 1000000 600). lia.
Defined.

Lemma allocation_weight_ranges_witness :
  let a := optimize_asset_allocation (F := Q) low 50000 1000000 36 in
  (0 <= stocks a <= 1)%Q /\ (0 <= bonds a <= 1)%Q /\ (0.087 <= cash a <= 0.11)%Q.
Proof.
  apply (allocation_weight_ranges low 50000 1000000 36); [ lia | discriminate ].
Defined.

(** ** RecommendationSynthesizer *)

Section ReasonExact.

Local Open Scope Q_scope.

Variable format_0f : Q -> string.

Lemma reasons_without_age_caution (f : RiskFactors (F := Q)) :
  0.5 <= age_factor f ->
  ~ In age_caution_clause (recommendation_reasons format_0f f).
Proof.
  intro Hage. unfold recommendation_reasons.
  change (fltb (F := Q)) with Qltb. change (lit (F := Q) 0.5) with 0.5.
  destruct (Qltb_reflect (age_factor f) 0.5) as [Hc | _]; [ lra | ].
  repeat match goal with
         | |- context [Qltb ?a ?b] => destruct (Qltb a b)
         end;
    cbn [app In]; unfold age_caution_clause; cbn [String.append];
    intro Hin; repeat (destruct Hin as [Hin | Hin]; [ discriminate Hin | ]);
    exact Hin.
Qed.

Lemma reasons_for_the_young (f : RiskFactors (F := Q)) (risk_assessment : RiskAssessment)
    (savings_plan : SavingsPlan) (risk_level : RiskLevel) (target_amount : Z) :
  factors risk_assessment = f ->
  0.8 < age_factor f ->
  exists asset_clause time_clause,
    firstn 3 (recommendation_reasons format_0f f)
    = [asset_clause; time_clause; young_clause]
    /\ _generate_recommendation_reason format_0f risk_assessment savings_plan
         risk_level target_amount
       = (reason_opening risk_level ++ " " ++ asset_clause ++ "；" ++ time_clause
          ++ "；" ++ young_clause)%string.
Proof.
  intros Hf Hage. unfold _generate_recommendation_reason. rewrite Hf.
  unfold recommendation_reasons.
  change (fltb (F := Q)) with Qltb. change (lit (F := Q) 0.8) with 0.8.
  destruct (Qltb_reflect 0.8 (age_factor f)) as [_ | Hc]; [ | lra ].
  cbn [app firstn].
  eexists; eexists. split; [ reflexivity | ].
  cbn [String.concat]. reflexivity.
Qed.

End ReasonExact.

Section RecommendExact.

Local Open Scope Q_scope.

Variable format_0f : Q -> string.
Variable pow_int : Q -> Z -> Q.
Variable math_log : Q -> Q.
Variable pow : Q -> Q -> Q.
Variable ml_model : option (Q -> Q -> Q -> Q -> option Q).
Variable math_sqrt : Q -> Q.
Variable Rng : Type.
Variable gauss : Rng -> Q -> Q -> Q * Rng.

(** X21: in exact arithmetic, for an assessment made by
    [calculate_risk_tolerance], the clause that advises caution because of
    the age is never among the reasons (the age factor never falls below
    0.5); and up to the age of 34 the reason is the opening sentence
    followed by exactly three clauses, on the assets, on the time and on
    being young, so that the income clause is never shown. *)
Theorem reason_never_cautions_about_age (current_asset monthly_income : Q)
    (goal : string) (age : Z) (savings_plan : SavingsPlan) (risk_level : RiskLevel)
    (target_amount : Z) :
  let assessment :=
    calculate_risk_tolerance math_log pow ml_model current_asset monthly_income
      goal age in
  let reasons := recommendation_reasons format_0f (factors assessment) in
  ~ In age_caution_clause reasons
  /\ ((age <= 34)%Z ->
      exists asset_clause time_clause,
        firstn 3 reasons = [asset_clause; time_clause; young_clause]
        /\ _generate_recommendation_reason format_0f assessment savings_plan
             risk_level target_amount
           = (reason_opening risk_level ++ " " ++ asset_clause ++ "；"
              ++ time_clause ++ "；" ++ young_clause)%string).
Proof.
  cbv zeta.
  pose proof (risk_factor_bounds math_log pow ml_model current_asset monthly_income
                goal age) as (_ & _ & _ & Hage & _).
  pose proof (age_factor_cases math_log pow ml_model current_asset monthly_income
                goal age) as (_ & _ & Hyoung & _).
  cbv zeta in Hage, Hyoung.
  split.
  - apply reasons_without_age_caution. exact Hage.
  - intro Ha.
    apply (reasons_for_the_young format_0f _ _ savings_plan risk_level
             target_amount eq_refl (Hyoung Ha)).
Qed.

(** What one recommendation holds, once the plan and the simulation
    have returned. *)
Lemma recommendation_for_returns (fuel : nat) (risk_assessment : RiskAssessment)
    (target_amount : Z) (current_asset monthly_income : Q)
    (recommended_risk : RiskLevel) (g : Rng) :
  (600 < fuel)%nat ->
  exists savings_plan r g',
    calculate_optimal_savings_rate pow_int fuel current_asset monthly_income
      (of_int target_amount) recommended_risk None = Some savings_plan
    /\ recommendation_for format_0f pow_int math_sqrt gauss fuel risk_assessment
         target_amount current_asset monthly_income recommended_risk g
       = (Some r, g')
    /\ recommendedRisk r = recommended_risk
    /\ targetAmount r = target_amount
    /\ targetMonths r = target_months savings_plan
    /\ monthlySave r = round_nd (monthly_save savings_plan) 2
    /\ reason r
       = _generate_recommendation_reason format_0f risk_assessment savings_plan
           recommended_risk target_amount
    /\ riskScore r = round_nd (risk_score risk_assessment) 2
    /\ p5 (monteCarloSimulation r) <= median (monteCarloSimulation r)
    /\ median (monteCarloSimulation r) <= p95 (monteCarloSimulation r).
Proof.
  intro Hfuel. unfold recommendation_for.
  destruct (calculate_optimal_savings_rate_returns pow_int fuel current_asset
              monthly_income (of_int target_amount) recommended_risk None Hfuel)
    as (plan & _ & Hplan & _).
  rewrite Hplan.
  destruct (monte_carlo_sorted_percentiles math_sqrt Rng gauss current_asset
              (monthly_save plan)
              (expected_return (risk_profiles recommended_risk))
              (volatility (risk_profiles recommended_risk))
              (target_months plan) 10000 g ltac:(lia))
    as (mc & Hmc & H5 & H95 & _).
  destruct (monte_carlo_simulation math_sqrt gauss current_asset
              (monthly_save plan)
              (expected_return (risk_profiles recommended_risk))
              (volatility (risk_profiles recommended_risk))
              (target_months plan) 10000 g) as [mc' g'].
  cbn [fst] in Hmc. subst mc'.
  exists plan. eexists. exists g'.
  split; [ reflexivity | split; [ reflexivity | ] ].
  cbn [recommendedRisk targetAmount targetMonths monthlySave reason riskScore
       monteCarloSimulation].
  repeat split; assumption.
Qed.

(** X22: in exact arithmetic, for a nonnegative current asset and a
    nonnegative income (outside of which Python raises exceptions that the
    total logarithm and division of this model do not show),
    [recommend_path] returns a recommendation for the goal's target
    amount, with a horizon within [0, 600], a score in [0, 1] that agrees
    with the recommended tier, and percentiles in order. *)
Theorem recommend_path_answers (fuel : nat) (goal : string)
    (current_asset monthly_income : Q) (age : Z) (g : Rng) :
  (600 < fuel)%nat -> 0 <= current_asset -> 0 <= monthly_income ->
  exists r g',
    recommend_path format_0f pow_int math_log pow ml_model math_sqrt gauss fuel
      goal current_asset monthly_income age g = (Some r, g')
    /\ targetAmount r = calculate_target_amount goal
    /\ (0 <= targetMonths r <= 600)%Z
    /\ 0 <= riskScore r <= 1
    /\ match recommendedRisk r with
       | high => 0.7 <= riskScore r
       | medium => 0.4 <= riskScore r <= 0.7
       | low => riskScore r <= 0.4
       end
    /\ p5 (monteCarloSimulation r) <= median (monteCarloSimulation r)
    /\ median (monteCarloSimulation r) <= p95 (monteCarloSimulation r).
Proof.
  intros Hfuel _ _. unfold recommend_path.
  set (ra := calculate_risk_tolerance math_log pow ml_model current_asset
               monthly_income goal age).
  destruct (recommendation_for_returns fuel ra (calculate_target_amount goal)
              current_asset monthly_income (risk_level ra) g Hfuel)
    as (plan & r & g' & Hplan & Hr & Hrisk & Htarget & Hmonths & _ & _ & Hscore
        & H5 & H95).
  exists r, g'. split; [ exact Hr | ].
  split; [ exact Htarget | ].
  assert (Hrange : (0 <= target_months plan <= 600)%Z).
  { destruct (default_plan_horizon_range pow_int fuel current_asset monthly_income
                (of_int (calculate_target_amount goal)) (risk_level ra) Hfuel)
      as (plan' & Hplan' & Hm).
    rewrite Hplan in Hplan'. injection Hplan' as <-. exact Hm. }
  split; [ rewrite Hmonths; exact Hrange | ].
  pose proof (risk_level_score_cases math_log pow ml_model current_asset
                monthly_income goal age) as Hcases.
  cbv zeta in Hcases. fold ra in Hcases.
  rewrite Hrisk, Hscore.
  change (round_nd (F := Q)) with Qround_nd.
  assert (Hidem : forall x lo hi : Q,
             Qround_nd lo 2 == lo -> Qround_nd hi 2 == hi ->
             lo <= x <= hi -> lo <= Qround_nd x 2 <= hi).
  { intros x lo hi Hlo Hhi [H1 H2]. split.
    - rewrite <- Hlo. apply Qround_nd_2_mono. exact H1.
    - rewrite <- Hhi. apply Qround_nd_2_mono. exact H2. }
  split; [ | split; [ | split; assumption ] ].
  - apply Hidem; [ reflexivity | reflexivity | ].
    destruct (risk_level ra); lra.
  - destruct (risk_level ra).
    + apply (Hidem _ 0 0.4); [ reflexivity | reflexivity | exact Hcases ].
    + apply (Hidem _ 0.4 0.7); [ reflexivity | reflexivity | exact Hcases ].
    + apply (Hidem _ 0.7 1); [ reflexivity | reflexivity | exact Hcases ].
Qed.

End RecommendExact.

Section EndpointExact.

Local Open Scope Q_scope.

Variable format_0f : Q -> string.
Variable pow_int : Q -> Z -> Q.
Variable math_log : Q -> Q.
Variable pow : Q -> Q -> Q.
Variable ml_model : option (Q -> Q -> Q -> Q -> option Q).
Variable math_sqrt : Q -> Q.
Variable Rng : Type.
Variable gauss : Rng -> Q -> Q -> Q * Rng.

(** X23: in exact arithmetic, for a nonnegative current asset and a
    nonnegative income, the endpoint [/api/planning/recommend] answers
    with the tier of the assessment made for the age of 30 and one
    recommendation per tier, in the order low, medium, high. Each is for
    its own tier and for the goal's target amount, has its percentiles in
    order, and gives the same three clauses after the opening sentence of
    its tier (the income clause is never shown). The three recommendations
    save the same amount per month, and the horizon does not grow from low
    to medium to high. *)
Theorem planning_recommend_answers (fuel : nat) (goal : string)
    (current_asset monthly_income : Q) (g : Rng) :
  (600 < fuel)%nat -> 0 <= current_asset -> 0 <= monthly_income ->
  exists r_low r_medium r_high g' asset_clause time_clause,
    planning_recommend format_0f pow_int math_log pow ml_model math_sqrt gauss
      fuel goal current_asset monthly_income g
    = (Some (risk_level
               (calculate_risk_tolerance math_log pow ml_model current_asset
                  monthly_income goal 30),
             [(low, r_low); (medium, r_medium); (high, r_high)]), g')
    /\ Forall (fun entry : RiskLevel * Recommendation =>
                 recommendedRisk (snd entry) = fst entry
                 /\ targetAmount (snd entry) = calculate_target_amount goal
                 /\ reason (snd entry)
                    = (reason_opening (fst entry) ++ " " ++ asset_clause ++ "；"
                       ++ time_clause ++ "；" ++ young_clause)%string
                 /\ p5 (monteCarloSimulation (snd entry))
                    <= median (monteCarloSimulation (snd entry))
                 /\ median (monteCarloSimulation (snd entry))
                    <= p95 (monteCarloSimulation (snd entry)))
         [(low, r_low); (medium, r_medium); (high, r_high)]
    /\ monthlySave r_low = monthlySave r_medium
    /\ monthlySave r_medium = monthlySave r_high
    /\ (0 <= targetMonths r_high <= targetMonths r_medium)%Z
    /\ (targetMonths r_medium <= targetMonths r_low <= 600)%Z.
Proof.
  intros Hfuel Hca Hincome. unfold planning_recommend.
  set (ra := calculate_risk_tolerance math_log pow ml_model current_asset
               monthly_income goal 30).
  set (target := calculate_target_amount goal).
  cbn [planning_loop].
  destruct (recommendation_for_returns format_0f pow_int math_sqrt Rng gauss fuel
              ra target current_asset monthly_income low g Hfuel)
    as (pl & rl & g1 & Hpl & Hrl & Hl1 & Hl2 & Hl3 & Hl4 & Hl5 & _ & Hl6 & Hl7).
  rewrite Hrl.
  destruct (recommendation_for_returns format_0f pow_int math_sqrt Rng gauss fuel
              ra target current_asset monthly_income medium g1 Hfuel)
    as (pm & rm & g2 & Hpm & Hrm & Hm1 & Hm2 & Hm3 & Hm4 & Hm5 & _ & Hm6 & Hm7).
  rewrite Hrm.
  destruct (recommendation_for_returns format_0f pow_int math_sqrt Rng gauss fuel
              ra target current_asset monthly_income high g2 Hfuel)
    as (ph & rh & g3 & Hph & Hrh & Hh1 & Hh2 & Hh3 & Hh4 & Hh5 & _ & Hh6 & Hh7).
  rewrite Hrh.
  pose proof (age_factor_cases math_log pow ml_model current_asset monthly_income
                goal 30) as (_ & _ & Hyoung & _).
  cbv zeta in Hyoung. fold ra in Hyoung. specialize (Hyoung ltac:(lia)).
  destruct (reasons_for_the_young format_0f (factors ra) ra pl low target eq_refl
              Hyoung) as (a & t & Hfirst & Hreason_low).
  exists rl, rm, rh, g3, a, t.
  split; [ reflexivity | ].
  assert (Hreason : forall plan tier,
             _generate_recommendation_reason format_0f ra plan tier target
             = (reason_opening tier ++ " " ++ a ++ "；" ++ t ++ "；"
                ++ young_clause)%string).
  { intros plan tier.
    destruct (reasons_for_the_young format_0f (factors ra) ra plan tier target
                eq_refl Hyoung) as (a' & t' & Hfirst' & Hreason').
    rewrite Hfirst in Hfirst'. injection Hfirst' as <- <-. exact Hreason'. }
  split.
  { repeat constructor; cbn [fst snd]; try assumption;
      match goal with
      | |- reason _ = _ => rewrite ?Hl5, ?Hm5, ?Hh5; apply Hreason
      end. }
  destruct (plan_saving_tier_free pow_int fuel current_asset monthly_income
              (of_int target) low medium Hfuel)
    as (p1 & p2 & Hp1 & Hp2 & Hs12 & _).
  rewrite Hpl in Hp1. rewrite Hpm in Hp2.
  injection Hp1 as <-. injection Hp2 as <-.
  destruct (plan_saving_tier_free pow_int fuel current_asset monthly_income
              (of_int target) medium high Hfuel)
    as (p2 & p3 & Hp2 & Hp3 & Hs23 & _).
  rewrite Hpm in Hp2. rewrite Hph in Hp3.
  injection Hp2 as <-. injection Hp3 as <-.
  destruct (riskier_tier_shorter_horizon pow_int fuel current_asset monthly_income
              (of_int target) low medium ltac:(discriminate) Hfuel Hca Hincome)
    as (p1 & p2 & Hp1 & Hp2 & Hlm & Hl600).
  rewrite Hpl in Hp1. rewrite Hpm in Hp2.
  injection Hp1 as <-. injection Hp2 as <-.
  destruct (riskier_tier_shorter_horizon pow_int fuel current_asset monthly_income
              (of_int target) medium high ltac:(discriminate) Hfuel Hca Hincome)
    as (p2 & p3 & Hp2 & Hp3 & Hmh & _).
  rewrite Hpm in Hp2. rewrite Hph in Hp3.
  injection Hp2 as <-. injection Hp3 as <-.
  rewrite Hl4, Hm4, Hh4, Hl3, Hm3, Hh3, Hs12, Hs23.
  repeat split; try reflexivity; lia.
Qed.

End EndpointExact.

Lemma recommend_path_answers_witness :
  exists r g',
    recommend_path (F := Q) (fun _ => EmptyString) (fun x n => Qpower x n)
      (fun x => x) (fun x y => x) None (fun x => x)
      (fun (g : nat) (mu sigma : Q) => (mu, S g)) 601
      "买房" 50000 15000 30 0%nat = (Some r, g')
    /\ targetAmount r = calculate_target_amount "买房"
    /\ (0 <= targetMonths r <= 600)%Z
    /\ (0 <= riskScore r <= 1)%Q
    /\ match recommendedRisk r with
       | high => (0.7 <= riskScore r)%Q
       | medium => (0.4 <= riskScore r <= 0.7)%Q
       | low => (riskScore r <= 0.4)%Q
       end
    /\ (p5 (monteCarloSimulation r) <= median (monteCarloSimulation r))%Q
    /\ (median (monteCarloSimulation r) <= p95 (monteCarloSimulation r))%Q.
Proof.
  apply (recommend_path_answers (fun _ => EmptyString) (fun x n => Qpower x n)
           (fun x => x) (fun x y => x) None (fun x => x) nat
           (fun (g : nat) (mu sigma : Q) => (mu, S g)) 601
           "买房" 50000 15000 30 0%nat);
    [ lia | discriminate | discriminate ].
Defined.

Lemma planning_recommend_answers_witness :
  exists r_low r_medium r_high g' asset_clause time_clause,
    planning_recommend (F := Q) (fun _ => EmptyString) (fun x n => Qpower x n)
      (fun x => x) (fun x y => x) None (fun x => x)
      (fun (g : nat) (mu sigma : Q) => (mu, S g)) 601
      "买房" 50000 15000 0%nat
    = (Some (risk_level
               (calculate_risk_tolerance (F := Q) (fun x => x) (fun x y => x) None
                  50000 15000 "买房" 30),
             [(low, r_low); (medium, r_medium); (high, r_high)]), g')
    /\ Forall (fun entry : RiskLevel * Recommendation =>
                 recommendedRisk (snd entry) = fst entry
                 /\ targetAmount (snd entry) = calculate_target_amount "买房"
                 /\ reason (snd entry)
                    = (reason_opening (fst entry) ++ " " ++ asset_clause ++ "；"
                       ++ time_clause ++ "；" ++ young_clause)%string
                 /\ (p5 (monteCarloSimulation (snd entry))
                     <= median (monteCarloSimulation (snd entry)))%Q
                 /\ (median (monteCarloSimulation (snd entry))
                     <= p95 (monteCarloSimulation (snd entry)))%Q)
         [(low, r_low); (medium, r_medium); (high, r_high)]
    /\ monthlySave r_low = monthlySave r_medium
    /\ monthlySave r_medium = monthlySave r_high
    /\ (0 <= targetMonths r_high <= targetMonths r_medium)%Z
    /\ (targetMonths r_medium <= targetMonths r_low <= 600)%Z.
Proof.
  apply (planning_recommend_answers (fun _ => EmptyString)
           (fun x n => Qpower x n) (fun x => x) (fun x y => x) None (fun x => x)
           nat (fun (g : nat) (mu sigma : Q) => (mu, S g)) 601
           "买房" 50000 15000 0%nat);
    [ lia | discriminate | discriminate ].
Defined.

(** X24: in binary64, for a nonnegative monthly income and an age from 0
    to 150 (where [math.log] and [**] return), when the current asset
    already covers the target, [recommend_path] is deterministic: it
    returns a recommendation without drawing from the random stream, with
    a horizon of 0 months, nothing to save, an expected final amount and
    all three percentiles equal to the current asset rounded to two
    decimals, and the allocation of its tier for a horizon of 0. *)
Theorem recommend_path_goal_met
    (format_0f : float -> string) (pow_int : float -> Z -> float)
    (math_log : float -> float) (pow : float -> float -> float)
    (ml_model : option (float -> float -> float -> float -> option float))
    (math_sqrt : float -> float) (Rng : Type)
    (gauss : Rng -> float -> float -> float * Rng)
    (fuel : nat) (goal : string) (current_asset monthly_income : float) (age : Z)
    (g : Rng) :
  (of_int 0 <=? monthly_income)%py = true ->
  (0 <= age <= 150)%Z ->
  (of_int (calculate_target_amount goal) - current_asset <=? of_int 0)%py = true ->
  exists r,
    recommend_path format_0f pow_int math_log pow ml_model math_sqrt gauss fuel
      goal current_asset monthly_income age g = (Some r, g)
    /\ targetMonths r = 0%Z
    /\ monthlySave r = of_int 0
    /\ expectedFinalAmount r = round_nd (round_nd current_asset 2) 2
    /\ median (monteCarloSimulation r) = round_nd current_asset 2
    /\ p5 (monteCarloSimulation r) = round_nd current_asset 2
    /\ p95 (monteCarloSimulation r) = round_nd current_asset 2
    /\ assetAllocation r
       = optimize_asset_allocation (recommendedRisk r) current_asset
           (of_int (calculate_target_amount goal)) 0.
Proof.
  intros _ _ Hgap. unfold recommend_path, recommendation_for.
  rewrite (goal_met_plan pow_int fuel current_asset monthly_income
             (of_int (calculate_target_amount goal)) _ Hgap).
  cbn [monthly_save target_months expected_final_amount].
  rewrite (monte_carlo_degenerate math_sqrt Rng gauss current_asset _ _ _ 0 10000 g);
    [ | lia | lia
      | vm_compute; split; [ discriminate | reflexivity ]
      | vm_compute; split; [ discriminate | reflexivity ] ].
  eexists. split; [ reflexivity | ].
  cbn [targetMonths monthlySave expectedFinalAmount monteCarloSimulation median p5
       p95 assetAllocation recommendedRisk].
  repeat split; try reflexivity.
Qed.

Lemma recommend_path_goal_met_witness :
  exists r,
    recommend_path (F := float) (fun _ => EmptyString) (fun x n => x)
      (fun x => x) (fun x y => x) None PrimFloat.sqrt
      (fun (g : nat) (mu sigma : float) => (mu, S g)) 0
      "买车" (lit 400000) (lit 15000) 30 0%nat = (Some r, 0%nat)
    /\ targetMonths r = 0%Z
    /\ monthlySave r = of_int 0
    /\ expectedFinalAmount r = round_nd (round_nd (lit 400000) 2) 2
    /\ median (monteCarloSimulation r) = round_nd (lit 400000) 2
    /\ p5 (monteCarloSimulation r) = round_nd (lit 400000) 2
    /\ p95 (monteCarloSimulation r) = round_nd (lit 400000) 2
    /\ assetAllocation r
       = optimize_asset_allocation (recommendedRisk r) (lit 400000)
           (of_int (calculate_target_amount "买车")) 0.
Proof.
  apply (recommend_path_goal_met (fun _ => EmptyString) (fun x n => x)
           (fun x => x) (fun x y => x) None PrimFloat.sqrt nat
           (fun (g : nat) (mu sigma : float) => (mu, S g)) 0
           "买车" (lit 400000) (lit 15000) 30 0%nat);
    [ vm_compute; reflexivity | lia | vm_compute; reflexivity ].
Defined.
